(** * The operation waiter of [yandexcloud/_operation_waiter.py]

    A shallow embedding of [OperationWaiter], [operation_waiter] and
    [wait_for_operation], and the properties of the polling protocol.

    Python objects live in a heap of waiter records and are named by their
    index. Times are binary64 floats, as [time.time()] returns them, and
    the [timeout] argument is [None] or a float, so that the deadline is
    the float sum the code computes. The world outside is a set of
    oracles: the remote operation service and the wall clock, indexed by
    the number of calls made so far; for [sdk.client], the truth test of
    the stream, its [write] and [flush], and [time.sleep], whether the call
    raises and what; and for the stream, whether it tests true. Every call
    that leaves the program is appended to a log. *)

From Stdlib Require Import ZArith Lia Floats.
From stdpp Require Import base list strings.

Open Scope nat_scope.

(** ** Data *)

(** The payload of an operation: nothing yet, an error status or a response.
    The waiter never looks at it. *)
Inductive OperationResult :=
  | NoResult
  | OpError (code : Z) (message : string)
  | OpResponse (body : string).

(** [yandex.cloud.operation.Operation], as far as the waiter reads it. *)
Record Operation := {
  op_id : string;
  op_done : bool;
  op_result : OperationResult
}.

(** [GetOperationRequest(operation_id=...)]. *)
Record GetOperationRequest := { operation_id : string }.

(** What one [Get] round trip yields: a message (possibly Python's [None])
    or a failure of the RPC. *)
Inductive Reply :=
  | Replies (op : option Operation)
  | Fails (code : Z) (details : string).

(** Exceptions the code can raise or let through: the stop signal of the
    iteration, the error of a [Get] round trip, and whatever another call
    to the outside ([sdk.client], the truth test of the stream, [write],
    [flush], [time.sleep]) raised.
    [DanglingReference] is what the heap primitives answer for an index
    that names no object; the references [operation_waiter] hands out
    always name one. *)
Inductive Exn :=
  | StopIteration
  | RpcError (code : Z) (details : string)
  | Failure (kind details : string)
  | DanglingReference.

(** The SDK object and the stub [sdk.client(OperationServiceStub)] hands out. *)
Inductive SDK := MkSDK (endpoint : string).
Inductive OperationServiceStub := MkStub (sdk : SDK).

(** An output stream object ([sys.stdout], a file, a buffer of one's own),
    named. *)
Definition Stream := string.

(** Calls that leave the program, in the order they happen. *)
Inductive Event :=
  | EvClient (sdk : SDK)
  | EvGet (req : GetOperationRequest)
  | EvTime
  | EvBool (stream : Stream)
  | EvWrite (stream : Stream) (text : string)
  | EvFlush (stream : Stream)
  | EvSleep (seconds : Z).

(** The attributes of an [OperationWaiter] object. *)
Record OperationWaiter := {
  __operation : option Operation;
  __operation_id : string;
  __operation_service : OperationServiceStub;
  __deadline : option float
}.

(** References to waiter objects are heap indices. *)
Definition ref := nat.

Record State := {
  heap : list OperationWaiter;
  calls : nat;          (* [Get] round trips made so far *)
  ticks : nat;          (* readings of [time.time()] made so far *)
  log : list Event
}.

(** ** Computations: state, exceptions, and fuel for the [for] loop *)

Inductive Result (A : Type) :=
  | Ok (a : A)
  | Raise (e : Exn)
  | OutOfFuel.
Arguments Ok {A} a.
Arguments Raise {A} e.
Arguments OutOfFuel {A}.

Definition M (A : Type) : Type := State -> Result A * State.

Definition ret {A} (a : A) : M A := fun st => (Ok a, st).

Definition raise {A} (e : Exn) : M A := fun st => (Raise e, st).

Definition bind {A B} (m : M A) (k : A -> M B) : M B :=
  fun st =>
    match m st with
    | (Ok a, st') => k a st'
    | (Raise e, st') => (Raise e, st')
    | (OutOfFuel, st') => (OutOfFuel, st')
    end.

Notation "x <- m ;; k" := (bind m (fun x => k))
  (at level 100, m at next level, right associativity).
Notation "m ;;; k" := (bind m (fun _ => k))
  (at level 100, right associativity).

Definition emit (ev : Event) (st : State) : State :=
  {| heap := heap st; calls := calls st; ticks := ticks st;
     log := log st ++ [ev] |}.

(** Heap primitives. *)
Definition alloc (w : OperationWaiter) : M ref :=
  fun st =>
    (Ok (length (heap st)),
     {| heap := heap st ++ [w]; calls := calls st; ticks := ticks st;
        log := log st |}).

Definition deref (r : ref) : M OperationWaiter :=
  fun st =>
    match heap st !! r with
    | Some w => (Ok w, st)
    | None => (Raise DanglingReference, st)
    end.

(** The object [w] after the assignment [self.__operation = op]. *)
Definition with_operation (w : OperationWaiter) (op : option Operation)
  : OperationWaiter :=
  {| __operation := op;
     __operation_id := __operation_id w;
     __operation_service := __operation_service w;
     __deadline := __deadline w |}.

Definition set_operation (r : ref) (op : option Operation) : M unit :=
  fun st =>
    match heap st !! r with
    | Some w =>
        (Ok tt,
         {| heap := <[r := with_operation w op]> (heap st);
            calls := calls st; ticks := ticks st; log := log st |})
    | None => (Raise DanglingReference, st)
    end.

(** Python truthiness of the [timeout] argument, a float or [None]: [None]
    and both zeros are false, everything else (a NaN too) is true. *)
Definition timeout_truthy (timeout : option float) : bool :=
  match timeout with
  | Some t => negb (PrimFloat.eqb t 0)
  | None => false
  end.

(** [self.__operation is not None and self.__operation.done]. *)
Definition snapshot_done (op : option Operation) : bool :=
  match op with
  | Some o => op_done o
  | None => false
  end.

(** ** Scenarios: concrete remote sides, clocks and streams *)

Definition pending_op (id : string) : Operation :=
  {| op_id := id; op_done := false; op_result := NoResult |}.

Definition finished_op (id : string) : Operation :=
  {| op_id := id; op_done := true; op_result := OpResponse "cluster" |}.

(** The operation is reported done from the [k]-th fetch on (counting
    from 1). *)
Definition done_on_fetch (k : nat) (n : nat) (req : GetOperationRequest)
  : Reply :=
  Replies (Some (if k <=? S n
                 then finished_op (operation_id req)
                 else pending_op (operation_id req))).

(** The operation never finishes. *)
Definition never_done (n : nat) (req : GetOperationRequest) : Reply :=
  Replies (Some (pending_op (operation_id req))).

(** Done on the first fetch, pending again afterwards. *)
Definition done_then_pending (n : nat) (req : GetOperationRequest) : Reply :=
  Replies (Some (match n with
                 | O => finished_op (operation_id req)
                 | S _ => pending_op (operation_id req)
                 end)).

(** The service answers with no message at all. *)
Definition absent_reply (n : nat) (req : GetOperationRequest) : Reply :=
  Replies None.


(** The float of a small natural number. *)
Fixpoint float_of_nat (n : nat) : float :=
  match n with
  | O => 0%float
  | S n' => (float_of_nat n' + 1)%float
  end.

(** A clock starting at [start] and advancing [step] seconds per reading. *)
Definition steady_clock (start step : float) (n : nat) : float :=
  (start + step * float_of_nat n)%float.

(** A clock reading 0 once and 10 ever after. *)
Definition late_clock (n : nat) : float :=
  match n with O => 0%float | S _ => 10%float end.

(** A clock that shows the same second, 1762300000, at every reading. *)
Definition frozen_clock (n : nat) : float := 1762300000%float.

(** No call to the outside raises. *)
Definition no_raise (history : list Event) (ev : Event)
  : option (string * string) := None.

(** A closed stream: every [write] raises [ValueError]. *)
Definition closed_stream (history : list Event) (ev : Event)
  : option (string * string) :=
  match ev with
  | EvWrite _ _ => Some ("ValueError", "I/O operation on closed file")
  | _ => None
  end.


(** Streams that always test true, as a file object does, and streams that
    always test false, as an object with an empty [__len__] does. *)
Definition always_true (history : list Event) (s : Stream) : bool := true.
Definition always_false (history : list Event) (s : Stream) : bool := false.

Definition empty_state : State :=
  {| heap := []; calls := 0; ticks := 0; log := [] |}.

Definition the_sdk : SDK := MkSDK "api.cloud.yandex.net".

(** A waiter for ["op-1"] built at time 0 with a timeout of 5 seconds, and
    the state right after its construction. *)
Definition waiter_5s : OperationWaiter :=
  {| __operation := None;
     __operation_id := "op-1";
     __operation_service := MkStub the_sdk;
     __deadline := Some 5%float |}.

Definition built_5s : State :=
  {| heap := [waiter_5s]; calls := 0; ticks := 1;
     log := [EvClient the_sdk; EvTime] |}.

(** The same without a timeout. *)
Definition waiter_forever : OperationWaiter :=
  {| __operation := None;
     __operation_id := "op-1";
     __operation_service := MkStub the_sdk;
     __deadline := None |}.

Definition built_forever : State :=
  {| heap := [waiter_forever]; calls := 0; ticks := 0;
     log := [EvClient the_sdk] |}.

(** ** The example script [examples/dataproc/using_wrapper.py]

    Everything the script reaches outside itself (the file system, JSON
    parsing, the SDK helpers, the [Dataproc] wrapper) is a field of
    [Externals]; the script's own control flow is modelled as written. *)

(** Exceptions, as far as the script tells them apart: its [except] clause
    catches [OperationError] only. *)
Inductive PyExn :=
  | OperationError (message : string)
  | OtherError (kind message : string).

Inductive Outcome (A : Type) :=
  | Returns (a : A)
  | Throws (e : PyExn).
Arguments Returns {A} a.
Arguments Throws {A} e.

(** The [argparse.Namespace] that [parse_cmd] returns. *)
Record Namespace := {
  sa_json_path : option string;
  token : option string;
  folder_id : string;
  zone : string;
  network_id : string;
  subnet_id : string;
  cluster_name : string;
  cluster_desc : string;
  ssh_public_key : string;
  service_account_id : string;
  s3_bucket : string
}.

(** A parsed service account key, opaque. *)
Inductive Json := JsonDoc (text : string).

(** [yandexcloud.SDK(token=...)] and [yandexcloud.SDK(service_account_key=...)]. *)
Inductive YandexSDK :=
  | SDK_token (token : string)
  | SDK_service_account_key (key : Json).

(** The calls the script makes on the [Dataproc] wrapper, with their
    arguments. *)
Inductive DataprocCall :=
  | create_cluster (masternode_resource_preset : string)
      (datanode_count : nat) (datanode_resource_preset : string)
      (subnet : string) (bucket : string)
  | update_cluster_description (description : string)
  | create_subcluster (subcluster_type name : string) (hosts_count : nat)
      (resource_preset : string)
  | create_mapreduce_job (main_class : string) (file_uris args : list string)
      (properties : list (string * string))
  | create_hive_job (query_file_uri : string)
      (script_variables : list (string * string))
  | create_spark_job (name main_jar_file_uri main_class : string)
      (file_uris archive_uris jar_file_uris args : list string)
      (properties : list (string * string))
  | create_pyspark_job (main_python_file_uri : string)
      (python_file_uris file_uris archive_uris args jar_file_uris
         : list string)
      (properties : list (string * string))
  | delete_cluster.

(** What the script does that can be observed, in order. *)
Inductive ScriptEvent :=
  | DidBasicConfig
  | DidReadFile (path : string)
  | DidFindNetwork (folder : string)
  | DidFindSubnet (folder zone network : string)
  | DidFindServiceAccount (folder : string)
  | DidLogException (message : string)
  | DidCall (call : DataprocCall).

(** The world outside the script; [D] is the state of a [Dataproc]
    object. *)
Record Externals (D : Type) := {
  expanduser : string -> string;
  path_exists : string -> bool;
  read_text : string -> Outcome string;
  strip : string -> string;
  json_load : string -> Outcome Json;
  find_network_id : YandexSDK -> string -> Outcome string;
  find_subnet_id : YandexSDK -> string -> string -> string -> Outcome string;
  find_service_account_id : YandexSDK -> string -> Outcome string;
  Dataproc : YandexSDK -> string -> string -> Outcome D;
  dataproc_call : DataprocCall -> D -> Outcome unit * D;
  cluster_id : D -> option string
}.
Arguments expanduser {D} _ _.
Arguments path_exists {D} _ _.
Arguments read_text {D} _ _.
Arguments strip {D} _ _.
Arguments json_load {D} _ _.
Arguments find_network_id {D} _ _ _.
Arguments find_subnet_id {D} _ _ _ _ _.
Arguments find_service_account_id {D} _ _ _.
Arguments Dataproc {D} _ _ _ _.
Arguments dataproc_call {D} _ _ _.
Arguments cluster_id {D} _ _.

(** The script's state: the mutable [arguments] object, the [dataproc]
    object once it is built, and what has been done so far. *)
Record Script (D : Type) := {
  arguments : Namespace;
  dataproc : option D;
  journal : list ScriptEvent
}.
Arguments arguments {D} _.
Arguments dataproc {D} _.
Arguments journal {D} _.

Definition SM (D A : Type) : Type := Script D -> Outcome A * Script D.

Definition sret {D A} (a : A) : SM D A := fun st => (Returns a, st).

Definition throw {D A} (e : PyExn) : SM D A := fun st => (Throws e, st).

Definition sbind {D A B} (m : SM D A) (k : A -> SM D B) : SM D B :=
  fun st =>
    match m st with
    | (Returns a, st') => k a st'
    | (Throws e, st') => (Throws e, st')
    end.

Notation "x <~ m ;; k" := (sbind m (fun x => k))
  (at level 100, m at next level, right associativity).
Notation "m ~>> k" := (sbind m (fun _ => k))
  (at level 100, right associativity).

Definition record {D} (ev : ScriptEvent) : SM D unit :=
  fun st =>
    (Returns tt,
     {| arguments := arguments st; dataproc := dataproc st;
        journal := journal st ++ [ev] |}).

(** A call of an external function: it is recorded, and returns or
    throws what the outside world says. *)
Definition external {D A} (ev : ScriptEvent) (r : Outcome A) : SM D A :=
  fun st =>
    (r, {| arguments := arguments st; dataproc := dataproc st;
           journal := journal st ++ [ev] |}).

Definition get_arguments {D} : SM D Namespace :=
  fun st => (Returns (arguments st), st).

Definition set_arguments {D} (a : Namespace) : SM D unit :=
  fun st =>
    (Returns tt,
     {| arguments := a; dataproc := dataproc st; journal := journal st |}).

(** Attribute assignments on the [Namespace]. *)
Definition with_ssh_public_key (a : Namespace) (v : string) : Namespace :=
  {| sa_json_path := sa_json_path a; token := token a;
     folder_id := folder_id a; zone := zone a;
     network_id := network_id a; subnet_id := subnet_id a;
     cluster_name := cluster_name a; cluster_desc := cluster_desc a;
     ssh_public_key := v;
     service_account_id := service_account_id a;
     s3_bucket := s3_bucket a |}.

Definition with_network_id (a : Namespace) (v : string) : Namespace :=
  {| sa_json_path := sa_json_path a; token := token a;
     folder_id := folder_id a; zone := zone a;
     network_id := v; subnet_id := subnet_id a;
     cluster_name := cluster_name a; cluster_desc := cluster_desc a;
     ssh_public_key := ssh_public_key a;
     service_account_id := service_account_id a;
     s3_bucket := s3_bucket a |}.

Definition with_subnet_id (a : Namespace) (v : string) : Namespace :=
  {| sa_json_path := sa_json_path a; token := token a;
     folder_id := folder_id a; zone := zone a;
     network_id := network_id a; subnet_id := v;
     cluster_name := cluster_name a; cluster_desc := cluster_desc a;
     ssh_public_key := ssh_public_key a;
     service_account_id := service_account_id a;
     s3_bucket := s3_bucket a |}.

Definition with_service_account_id (a : Namespace) (v : string) : Namespace :=
  {| sa_json_path := sa_json_path a; token := token a;
     folder_id := folder_id a; zone := zone a;
     network_id := network_id a; subnet_id := subnet_id a;
     cluster_name := cluster_name a; cluster_desc := cluster_desc a;
     ssh_public_key := ssh_public_key a;
     service_account_id := v;
     s3_bucket := s3_bucket a |}.

(** Python truthiness of a string: the empty string is false. *)
Definition str_truthy (s : string) : bool := negb (String.eqb s "").

(** [fill_missing_flags(sdk, arguments)]. *)
Definition fill_missing_flags {D} (ext : Externals D) (sdk : YandexSDK)
  : SM D unit :=
  (a <~ get_arguments ;;
   if path_exists ext (expanduser ext (ssh_public_key a))
   then
     content <~ external (DidReadFile (ssh_public_key a))
                  (read_text ext (ssh_public_key a)) ;;
     set_arguments (with_ssh_public_key a (strip ext content))
   else sret tt) ~>>
  (a <~ get_arguments ;;
   if negb (str_truthy (network_id a))
   then
     found <~ external (DidFindNetwork (folder_id a))
                (find_network_id ext sdk (folder_id a)) ;;
     set_arguments (with_network_id a found)
   else sret tt) ~>>
  (a <~ get_arguments ;;
   if negb (str_truthy (subnet_id a))
   then
     found <~ external
                (DidFindSubnet (folder_id a) (zone a) (network_id a))
                (find_subnet_id ext sdk (folder_id a) (zone a)
                   (network_id a)) ;;
     set_arguments (with_subnet_id a found)
   else sret tt) ~>>
  (a <~ get_arguments ;;
   if negb (str_truthy (service_account_id a))
   then
     found <~ external (DidFindServiceAccount (folder_id a))
                (find_service_account_id ext sdk (folder_id a)) ;;
     set_arguments (with_service_account_id a found)
   else sret tt).

(** A method call on the [dataproc] object. *)
Definition call {D} (ext : Externals D) (c : DataprocCall) : SM D unit :=
  fun st =>
    match dataproc st with
    | Some d =>
        let (r, d') := dataproc_call ext c d in
        (r, {| arguments := arguments st; dataproc := Some d';
               journal := journal st ++ [DidCall c] |})
    | None => (Throws (OtherError "NameError" "dataproc"), st)
    end.

(** [try: body / except caught: handler / finally: finalizer]: the handler
    runs on a caught exception, the finalizer runs in every case, and an
    exception of the finalizer replaces the one pending. *)
Definition try_except_finally {D} (body : SM D unit)
    (caught : PyExn -> bool) (handler : PyExn -> SM D unit)
    (finalizer : SM D unit) : SM D unit :=
  fun st =>
    let (r, st1) :=
      match body st with
      | (Returns u, st1) => (Returns u, st1)
      | (Throws e, st1) =>
          if caught e then handler e st1 else (Throws e, st1)
      end in
    match finalizer st1 with
    | (Returns _, st2) => (r, st2)
    | (Throws e, st2) => (Throws e, st2)
    end.

Definition is_OperationError (e : PyExn) : bool :=
  match e with
  | OperationError _ => true
  | OtherError _ _ => false
  end.

(** The calls of the [try] block of [main], for the bucket and subnet the
    arguments name. *)
Definition the_create_cluster (subnet bucket : string) : DataprocCall :=
  create_cluster "s2.micro" 2 "s2.micro" subnet bucket.

Definition the_create_subcluster : DataprocCall :=
  create_subcluster "compute" "compute" 1 "s2.micro".

Definition the_mapreduce_job (bucket : string) : DataprocCall :=
  create_mapreduce_job "org.apache.hadoop.streaming.HadoopStreaming"
    ["s3a://data-proc-public/jobs/sources/mapreduce-001/mapper.py";
     "s3a://data-proc-public/jobs/sources/mapreduce-001/reducer.py"]
    ["-mapper"; "mapper.py"; "-reducer"; "reducer.py";
     "-numReduceTasks"; "1";
     "-input"; "s3a://data-proc-public/jobs/sources/data/cities500.txt.bz2";
     "-output"; "s3a://" +:+ bucket +:+ "/dataproc/job/results"]
    [("yarn.app.mapreduce.am.resource.mb", "2048");
     ("yarn.app.mapreduce.am.command-opts", "-Xmx2048m");
     ("mapreduce.job.maps", "6")].

Definition the_hive_job : DataprocCall :=
  create_hive_job "s3a://data-proc-public/jobs/sources/hive-001/main.sql"
    [("CITIES_URI", "s3a://data-proc-public/jobs/sources/hive-001/cities/");
     ("COUNTRY_CODE", "RU")].

Definition the_spark_job (bucket : string) : DataprocCall :=
  create_spark_job
    "Spark job: Find total urban population in distribution by country"
    "s3a://data-proc-public/jobs/sources/java/dataproc-examples-1.0.jar"
    "ru.yandex.cloud.dataproc.examples.PopulationSparkJob"
    ["s3a://data-proc-public/jobs/sources/data/config.json"]
    ["s3a://data-proc-public/jobs/sources/data/country-codes.csv.zip"]
    ["s3a://data-proc-public/jobs/sources/java/icu4j-61.1.jar";
     "s3a://data-proc-public/jobs/sources/java/commons-lang-2.6.jar";
     "s3a://data-proc-public/jobs/sources/java/opencsv-4.1.jar";
     "s3a://data-proc-public/jobs/sources/java/json-20190722.jar"]
    ["s3a://data-proc-public/jobs/sources/data/cities500.txt.bz2";
     "s3a://" +:+ bucket +:+ "/dataproc/job/results/${JOB_ID}"]
    [("spark.submit.deployMode", "cluster")].

Definition the_pyspark_job (bucket : string) : DataprocCall :=
  create_pyspark_job
    "s3a://data-proc-public/jobs/sources/pyspark-001/main.py"
    ["s3a://data-proc-public/jobs/sources/pyspark-001/geonames.py"]
    ["s3a://data-proc-public/jobs/sources/data/config.json"]
    ["s3a://data-proc-public/jobs/sources/data/country-codes.csv.zip"]
    ["s3a://data-proc-public/jobs/sources/data/cities500.txt.bz2";
     "s3a://" +:+ bucket +:+ "/jobs/results/${JOB_ID}"]
    ["s3a://data-proc-public/jobs/sources/java/dataproc-examples-1.0.jar";
     "s3a://data-proc-public/jobs/sources/java/icu4j-61.1.jar";
     "s3a://data-proc-public/jobs/sources/java/commons-lang-2.6.jar"]
    [("spark.submit.deployMode", "cluster")].

(** The [try] block of [main]. *)
Definition main_try {D} (ext : Externals D) (bucket_for_logs_output : string)
  : SM D unit :=
  (a <~ get_arguments ;;
   call ext (the_create_cluster (subnet_id a) bucket_for_logs_output)) ~>>
  call ext (update_cluster_description "New cluster description") ~>>
  call ext the_create_subcluster ~>>
  call ext (the_mapreduce_job bucket_for_logs_output) ~>>
  call ext the_hive_job ~>>
  call ext (the_spark_job bucket_for_logs_output) ~>>
  call ext (the_pyspark_job bucket_for_logs_output).

(** The [finally] block of [main]. *)
Definition main_finally {D} (ext : Externals D) : SM D unit :=
  fun st =>
    match dataproc st with
    | Some d =>
        match cluster_id ext d with
        | Some _ => call ext delete_cluster st
        | None => (Returns tt, st)
        end
    | None => (Throws (OtherError "NameError" "dataproc"), st)
    end.

(** The [else] branch of the credentials test of [main]: the key file is
    opened under [arguments.sa_json_path] (opening [None] is a
    [TypeError]) and parsed. *)
Definition sdk_from_key_file {D} (ext : Externals D)
    (path : option string) : SM D YandexSDK :=
  match path with
  | Some p =>
      content <~ external (DidReadFile p) (read_text ext p) ;;
      key <~ (fun st => (json_load ext content, st)) ;;
      sret (SDK_service_account_key key)
  | None => throw (OtherError "TypeError" "open")
  end.

(** The statements of [main] before its [try] block, from the [Namespace]
    that [parse_cmd()] returned, which is the [arguments] of the initial
    state; the value is [bucket_for_logs_output]. *)
Definition main_setup {D} (ext : Externals D) : SM D string :=
  record DidBasicConfig ~>>
  a <~ get_arguments ;;
  sdk <~ match token a with
         | Some t =>
             if str_truthy t then sret (SDK_token t)
             else sdk_from_key_file ext (sa_json_path a)
         | None => sdk_from_key_file ext (sa_json_path a)
         end ;;
  fill_missing_flags ext sdk ~>>
  a <~ get_arguments ;;
  (fun st =>
     match Dataproc ext sdk (folder_id a) (ssh_public_key a) with
     | Returns d =>
         (Returns tt,
          {| arguments := arguments st; dataproc := Some d;
             journal := journal st |})
     | Throws e => (Throws e, st)
     end) ~>>
  sret (s3_bucket a).

(** [main()]. *)
Definition main {D} (ext : Externals D) : SM D unit :=
  bucket_for_logs_output <~ main_setup ext ;;
  try_except_finally
    (main_try ext bucket_for_logs_output)
    is_OperationError
    (fun _ => record (DidLogException "Operation error"))
    (main_finally ext).

(** The calls of the [try] block, in order. *)
Definition jobs (subnet bucket : string) : list DataprocCall :=
  [the_create_cluster subnet bucket;
   update_cluster_description "New cluster description";
   the_create_subcluster;
   the_mapreduce_job bucket;
   the_hive_job;
   the_spark_job bucket;
   the_pyspark_job bucket].

(** Calls in a row: they stop at the first one that throws. *)
Fixpoint call_all {D} (ext : Externals D) (cs : list DataprocCall)
  : SM D unit :=
  match cs with
  | [] => sret tt
  | c :: cs' => call ext c ~>> call_all ext cs'
  end.

(** What calls in a row do to a wrapper in state [d]: the calls made, which
    stop with the first one that throws, the outcome, which is that of this
    call when there is one, and the state the wrapper is left in. *)
Fixpoint run_calls {D} (ext : Externals D) (cs : list DataprocCall) (d : D)
  : list DataprocCall * Outcome unit * D :=
  match cs with
  | [] => ([], Returns tt, d)
  | c :: cs' =>
      match dataproc_call ext c d with
      | (Returns _, d1) =>
          let '(made, r, d2) := run_calls ext cs' d1 in (c :: made, r, d2)
      | (Throws e, d1) => ([c], Throws e, d1)
      end
  end.

(** What the clause [except OperationError] makes of the outcome of the
    [try] block, and what it logs. *)
Definition after_except (r : Outcome unit) : Outcome unit :=
  match r with
  | Throws (OperationError _) => Returns tt
  | _ => r
  end.

Definition except_log (r : Outcome unit) : list ScriptEvent :=
  match r with
  | Throws (OperationError _) => [DidLogException "Operation error"]
  | _ => []
  end.

(** The calls on the wrapper that a journal records, in order. *)
Definition wrapper_calls (l : list ScriptEvent) : list DataprocCall :=
  omap (fun ev => match ev with DidCall c => Some c | _ => None end) l.

(** A wrapper for the scenarios: its state is the cluster identifier, set by
    [create_cluster] and cleared by [delete_cluster]; the Hive job fails
    with an [OperationError]. *)
Definition demo_call (c : DataprocCall) (d : option string)
  : Outcome unit * option string :=
  match c with
  | create_cluster _ _ _ _ _ => (Returns tt, Some "c9q")
  | create_hive_job _ _ => (Throws (OperationError "job failed"), d)
  | delete_cluster => (Returns tt, None)
  | _ => (Returns tt, d)
  end.

Definition demo_ext : Externals (option string) :=
  {| expanduser := fun p => p;
     path_exists := fun p => String.eqb p "key.pub";
     read_text := fun p =>
       if String.eqb p "key.pub" then Returns "ssh-ed25519 AAAA"
       else Throws (OtherError "FileNotFoundError" p);
     strip := fun s => s;
     json_load := fun s => Returns (JsonDoc s);
     find_network_id := fun _ _ => Returns "net-1";
     find_subnet_id := fun _ _ _ network => Returns ("sub-of-" +:+ network);
     find_service_account_id := fun _ _ => Returns "sa-1";
     Dataproc := fun _ _ _ => Returns None;
     dataproc_call := demo_call;
     cluster_id := fun d => d |}.

(** The same world where [~] expands and only the expanded key path
    exists. *)
Definition tilde_ext : Externals (option string) :=
  {| expanduser := fun p =>
       if String.eqb p "~/key.pub" then "/home/u/key.pub" else p;
     path_exists := fun p => String.eqb p "/home/u/key.pub";
     read_text := fun p =>
       if String.eqb p "/home/u/key.pub" then Returns "ssh-ed25519 AAAA"
       else Throws (OtherError "FileNotFoundError" p);
     strip := fun s => s;
     json_load := fun s => Returns (JsonDoc s);
     find_network_id := fun _ _ => Returns "net-1";
     find_subnet_id := fun _ _ _ network => Returns ("sub-of-" +:+ network);
     find_service_account_id := fun _ _ => Returns "sa-1";
     Dataproc := fun _ _ _ => Returns None;
     dataproc_call := demo_call;
     cluster_id := fun d => d |}.

(** A wrapper whose cluster cannot be deleted. *)
Definition stuck_call (c : DataprocCall) (d : option string)
  : Outcome unit * option string :=
  match c with
  | create_cluster _ _ _ _ _ => (Returns tt, Some "c9q")
  | delete_cluster => (Throws (OperationError "cannot delete"), d)
  | _ => (Returns tt, d)
  end.

Definition stuck_ext : Externals (option string) :=
  {| expanduser := fun p => p;
     path_exists := fun p => false;
     read_text := fun p => Throws (OtherError "FileNotFoundError" p);
     strip := fun s => s;
     json_load := fun s => Returns (JsonDoc s);
     find_network_id := fun _ _ => Returns "net-1";
     find_subnet_id := fun _ _ _ network => Returns ("sub-of-" +:+ network);
     find_service_account_id := fun _ _ => Returns "sa-1";
     Dataproc := fun _ _ _ => Returns None;
     dataproc_call := stuck_call;
     cluster_id := fun d => d |}.

Definition demo_arguments : Namespace :=
  {| sa_json_path := None; token := Some "t0ken";
     folder_id := "folder-1"; zone := "ru-central1-b";
     network_id := ""; subnet_id := "";
     cluster_name := "cluster1"; cluster_desc := "";
     ssh_public_key := "ssh-ed25519 AAAAC3";
     service_account_id := ""; s3_bucket := "logs" |}.

Definition explicit_arguments : Namespace :=
  {| sa_json_path := None; token := Some "t0ken";
     folder_id := "folder-1"; zone := "ru-central1-b";
     network_id := "net-7"; subnet_id := "sub-7";
     cluster_name := "cluster1"; cluster_desc := "";
     ssh_public_key := "ssh-ed25519 AAAAC3";
     service_account_id := "sa-7"; s3_bucket := "logs" |}.

Definition start (a : Namespace) : Script (option string) :=
  {| arguments := a; dataproc := None; journal := [] |}.

Section Waiter.

(** The world outside: the reply to the [n]-th [Get] round trip; the [n]-th
    reading of the wall clock, in seconds; whether a call to [sdk.client],
    the truth test of the stream, [write], [flush] or [time.sleep] raises,
    and what, given the calls made before it; and whether a stream object
    tests true, given the calls made before the test. *)
Variable remote : nat -> GetOperationRequest -> Reply.
Variable clock : nat -> float.
Variable raises : list Event -> Event -> option (string * string).
Variable truthy : list Event -> Stream -> bool.

(** [time.time()]. *)
Definition time_time : M float :=
  fun st =>
    (Ok (clock (ticks st)),
     {| heap := heap st; calls := calls st; ticks := S (ticks st);
        log := log st ++ [EvTime] |}).

(** [operation_service.Get(request)]. *)
Definition Get (stub : OperationServiceStub) (req : GetOperationRequest)
  : M (option Operation) :=
  fun st =>
    let st' := {| heap := heap st; calls := S (calls st); ticks := ticks st;
                  log := log st ++ [EvGet req] |} in
    match remote (calls st) req with
    | Replies op => (Ok op, st')
    | Fails code details => (Raise (RpcError code details), st')
    end.

(** Any other call to the outside: it is logged, and it returns or raises
    as the world decides. *)
Definition outside (ev : Event) : M unit :=
  fun st =>
    match raises (log st) ev with
    | None => (Ok tt, emit ev st)
    | Some (kind, details) => (Raise (Failure kind details), emit ev st)
    end.

(** [sdk.client(OperationServiceStub)]. *)
Definition client (sdk : SDK) : M OperationServiceStub :=
  outside (EvClient sdk) ;;;
  ret (MkStub sdk).

(** [stream.write(text)], [stream.flush()] and [time.sleep(seconds)]. *)
Definition stream_write (s : Stream) (text : string) : M unit :=
  outside (EvWrite s text).

Definition stream_flush (s : Stream) : M unit :=
  outside (EvFlush s).

Definition time_sleep (seconds : Z) : M unit :=
  outside (EvSleep seconds).

(** The truth value of a stream object, as [if print_to_stream:] tests
    it. *)
Definition stream_bool (s : Stream) : M bool :=
  fun st =>
    match raises (log st) (EvBool s) with
    | None => (Ok (truthy (log st) s), emit (EvBool s) st)
    | Some (kind, details) => (Raise (Failure kind details), emit (EvBool s) st)
    end.

(** ** [class OperationWaiter] *)

(** [__init__]: the deadline is the float [time.time() + timeout] when
    [timeout] is truthy, and the clock is read only then. *)
Definition __init__ (operation_id : string)
    (operation_service : OperationServiceStub) (timeout : option float)
  : M ref :=
  deadline <-
    match timeout with
    | Some t =>
        if timeout_truthy timeout
        then (now <- time_time ;; ret (Some (now + t)%float))
        else ret None
    | None => ret None
    end ;;
  alloc {| __operation := None;
           __operation_id := operation_id;
           __operation_service := operation_service;
           __deadline := deadline |}.

(** The [operation] property. *)
Definition operation (self : ref) : M (option Operation) :=
  w <- deref self ;;
  ret (__operation w).

(** The [done] property: one fetch, stored before its flag is read. *)
Definition done (self : ref) : M bool :=
  w <- deref self ;;
  op <- Get (__operation_service w)
            {| operation_id := __operation_id w |} ;;
  set_operation self op ;;;
  ret (snapshot_done op).

Definition __iter__ (self : ref) : M ref := ret self.

(** [__next__]: [self.done or self.__deadline is not None and
    time.time() >= self.__deadline]; returns [None] when it does not raise. *)
Definition __next__ (self : ref) : M unit :=
  d <- done self ;;
  if d then raise StopIteration
  else
    w <- deref self ;;
    match __deadline w with
    | None => ret tt
    | Some deadline =>
        now <- time_time ;;
        if PrimFloat.leb deadline now then raise StopIteration else ret tt
    end.

Definition next := __next__.

(** ** Module-level functions *)

Definition operation_waiter (sdk : SDK) (operation_id : string)
    (timeout : option float) : M ref :=
  operation_service <- client sdk ;;
  __init__ operation_id operation_service timeout.

(** The body of the [for] loop of [wait_for_operation]: [None] is false
    without any call; a stream object is asked for its truth value at
    every turn. *)
Definition loop_body (print_to_stream : option Stream) : M unit :=
  match print_to_stream with
  | Some s =>
      b <- stream_bool s ;;
      if b then stream_write s "." ;;; stream_flush s else ret tt
  | None => ret tt
  end ;;;
  time_sleep 1.

(** [for _ in it: body]: [StopIteration] from [__next__] ends the loop,
    any other exception leaves it. *)
Fixpoint for_loop (fuel : nat) (it : ref) (print_to_stream : option Stream)
  : M unit :=
  fun st =>
    match fuel with
    | O => (OutOfFuel, st)
    | S fuel' =>
        match __next__ it st with
        | (Ok _, st1) =>
            (loop_body print_to_stream ;;;
             for_loop fuel' it print_to_stream) st1
        | (Raise StopIteration, st1) => (Ok tt, st1)
        | (Raise e, st1) => (Raise e, st1)
        | (OutOfFuel, st1) => (OutOfFuel, st1)
        end
    end.

Definition wait_for_operation (fuel : nat) (sdk : SDK) (operation_id : string)
    (timeout : option float) (print_to_stream : option Stream)
  : M (option Operation) :=
  waiter <- operation_waiter sdk operation_id timeout ;;
  fresh <- operation_waiter sdk operation_id timeout ;;
  it <- __iter__ fresh ;;
  for_loop fuel it print_to_stream ;;;
  operation waiter.

(** ** The vocabulary of the specification *)

(** [Poll()]: one step of the iteration, with the stop signal turned into
    the boolean [finished]. *)
Definition Poll (self : ref) : M bool :=
  fun st =>
    match __next__ self st with
    | (Ok _, st') => (Ok false, st')
    | (Raise StopIteration, st') => (Ok true, st')
    | (Raise e, st') => (Raise e, st')
    | (OutOfFuel, st') => (OutOfFuel, st')
    end.

Definition LastSnapshot := operation.

(** A caller polling [n] times in a row, whatever each call answers. *)
Fixpoint poll_seq (n : nat) (self : ref) (st : State)
  : list (Result bool) * State :=
  match n with
  | O => ([], st)
  | S n' =>
      let (r, st1) := Poll self st in
      let (rs, st2) := poll_seq n' self st1 in
      (r :: rs, st2)
  end.

(** ** Auxiliary definitions for the statements *)

(** The request a waiter sends. *)
Definition request_of (w : OperationWaiter) : GetOperationRequest :=
  {| operation_id := __operation_id w |}.

(** The state after the fetch of a poll of [self], holding [w], answered
    by the message [op]. *)
Definition fetched (self : ref) (w : OperationWaiter) (op : option Operation)
    (st : State) : State :=
  {| heap := <[self := with_operation w op]> (heap st);
     calls := S (calls st); ticks := ticks st;
     log := log st ++ [EvGet (request_of w)] |}.

(** The same state after the clock has been read as well. *)
Definition timed (st : State) : State :=
  {| heap := heap st; calls := calls st; ticks := S (ticks st);
     log := log st ++ [EvTime] |}.

(** The state after a fetch of [w] that failed: only the round trip is
    recorded. *)
Definition failed (w : OperationWaiter) (st : State) : State :=
  {| heap := heap st; calls := S (calls st); ticks := ticks st;
     log := log st ++ [EvGet (request_of w)] |}.

(** [self.__deadline is not None and now >= self.__deadline]. *)
Definition deadline_reached (w : OperationWaiter) (now : float) : bool :=
  match __deadline w with
  | Some deadline => PrimFloat.leb deadline now
  | None => false
  end.

(** The state a poll of [self] ends in when the fetch is answered by [op]:
    the clock is read only when the message is not done and a deadline is
    set. *)
Definition polled (self : ref) (w : OperationWaiter) (op : option Operation)
    (st : State) : State :=
  if snapshot_done op then fetched self w op st
  else match __deadline w with
       | Some _ => timed (fetched self w op st)
       | None => fetched self w op st
       end.

(** What the progress stream [s] received, in order. *)
Definition on_stream (s : Stream) (ev : Event) : bool :=
  match ev with
  | EvWrite s' _ | EvFlush s' => bool_decide (s' = s)
  | _ => false
  end.

Definition sink_events (s : Stream) (l : list Event) : list Event :=
  List.filter (on_stream s) l.

(** The object [__init__] builds, given the deadline it computed. *)
Definition new_waiter (sdk : SDK) (operation_id : string)
    (deadline : option float) : OperationWaiter :=
  {| __operation := None;
     __operation_id := operation_id;
     __operation_service := MkStub sdk;
     __deadline := deadline |}.

(** The deadline [__init__] computes at the clock reading [now]. *)
Definition deadline_at (timeout : option float) (now : float)
  : option float :=
  match timeout with
  | Some t => if timeout_truthy timeout then Some (now + t)%float else None
  | None => None
  end.

(** The state [operation_waiter] leaves when [sdk.client] does not raise:
    one more object, one more clock reading when the timeout is truthy. *)
Definition built (sdk : SDK) (operation_id : string)
    (timeout : option float) (st : State) : State :=
  {| heap := heap st ++
             [new_waiter sdk operation_id
                (deadline_at timeout (clock (ticks st)))];
     calls := calls st;
     ticks := if timeout_truthy timeout then S (ticks st) else ticks st;
     log := log st ++
            EvClient sdk ::
            (if timeout_truthy timeout then [EvTime] else []) |}.

(** Clock readings one poll makes when its fetch is answered not done. *)
Definition tick_step (w : OperationWaiter) : nat :=
  match __deadline w with Some _ => 1 | None => 0 end.

(** The fetches [calls st], ..., [calls st + n - 1] of [w] are all answered
    with a message that is not done. *)
Definition pending_for (n : nat) (w : OperationWaiter) (st : State) : Prop :=
  forall i, i < n ->
    exists op, remote (calls st + i) (request_of w) = Replies op /\
               snapshot_done op = false.

(** No call to [sdk.client], no truth test, [write], [flush] or
    [time.sleep] raises. *)
Definition no_raises : Prop :=
  forall history ev, raises history ev = None.

(** Events of the waiter itself: round trips and clock readings. *)
Definition waiter_event (ev : Event) : bool :=
  match ev with
  | EvGet _ | EvTime => true
  | _ => false
  end.

(** The truth value [if print_to_stream:] finds after the calls
    [history]. *)
Definition stream_test (print_to_stream : option Stream)
    (history : list Event) : bool :=
  match print_to_stream with
  | Some s => truthy history s
  | None => false
  end.

(** What a turn of the loop does with [print_to_stream] after its poll,
    [b] being the truth value the stream answered. *)
Definition stream_part (print_to_stream : option Stream) (b : bool)
  : list Event :=
  match print_to_stream with
  | Some s => EvBool s :: (if b then [EvWrite s "."; EvFlush s] else [])
  | None => []
  end.

(** One turn of the loop: the events [p] of the poll, the part of the
    stream, and the sleep. *)
Definition turn (print_to_stream : option Stream) (b : bool)
    (p : list Event) : list Event :=
  p ++ stream_part print_to_stream b ++ [EvSleep 1].

Definition turn_of (print_to_stream : option Stream)
    (bp : bool * list Event) : list Event :=
  turn print_to_stream (fst bp) (snd bp).

(** One turn of the loop on a stream [s] that tests true: the events [p]
    of the poll, the truth test, the marker, the flush and the sleep. *)
Definition iteration (s : Stream) (p : list Event) : list Event :=
  p ++ [EvBool s; EvWrite s "."; EvFlush s; EvSleep 1].

(** [n] progress markers, each followed by a flush. *)
Definition markers (s : Stream) (n : nat) : list Event :=
  concat (repeat [EvWrite s "."; EvFlush s] n).

(** How the [for] loop ends when the last poll answers [r]. *)
Definition loop_outcome (r : Result bool) : Result unit :=
  match r with
  | Ok _ => Ok tt
  | Raise e => Raise e
  | OutOfFuel => OutOfFuel
  end.

(** Two states that differ at most in their logs. *)
Definition world_eq (st1 st2 : State) : Prop :=
  heap st1 = heap st2 /\ calls st1 = calls st2 /\ ticks st1 = ticks st2.

(** The calls [wait_for_operation] makes, besides round trips and clock
    readings, when it is given [sdk] and [print_to_stream]. *)
Definition outside_event (sdk : SDK) (print_to_stream : option Stream)
    (ev : Event) : Prop :=
  ev = EvClient sdk \/ ev = EvSleep 1 \/
  exists s, print_to_stream = Some s /\
            (ev = EvBool s \/ ev = EvWrite s "." \/ ev = EvFlush s).

(** All the calls [wait_for_operation] can make when it is given [sdk],
    [print_to_stream] and the operation of the request [req]. *)
Definition loop_event (sdk : SDK) (print_to_stream : option Stream)
    (req : GetOperationRequest) (ev : Event) : Prop :=
  ev = EvGet req \/ ev = EvTime \/ outside_event sdk print_to_stream ev.

Definition is_sleep (ev : Event) : bool :=
  match ev with EvSleep _ => true | _ => false end.

(** The sleeps of a log, in order. *)
Definition sleep_events (l : list Event) : list Event :=
  List.filter is_sleep l.


(** Closes a goal [Forall P l] on an explicit list from the hypotheses. *)
Ltac all_events :=
  repeat (apply Forall_cons_2; [assumption|]); apply Forall_nil_2.

(** ** The order of floats *)

Lemma SFcompare_antisym (x y : spec_float) (c : comparison) :
  SFcompare x y = Some c -> SFcompare y x = Some (CompOpp c).
Proof.
  destruct x as [s1|s1| |s1 m1 e1], y as [s2|s2| |s2 m2 e2]; cbn;
    try discriminate;
    try (destruct s1; try destruct s2; intros H; injection H as <-;
         reflexivity);
    try (destruct s2; intros H; injection H as <-; reflexivity);
    try (intros H; injection H as <-; reflexivity).
  change (PosDef.Pos.compare_cont Eq m1 m2) with (Pos.compare m1 m2).
  change (PosDef.Pos.compare_cont Eq m2 m1) with (Pos.compare m2 m1).
  rewrite (Z.compare_antisym e1 e2), (Pos.compare_antisym m1 m2).
  destruct s1, s2; intros H; injection H as <-;
    destruct (e1 ?= e2)%Z, (m1 ?= m2)%positive; reflexivity.
Qed.

Lemma SFleb_trans (x y z : spec_float) :
  SFleb x y = true -> SFleb y z = true -> SFleb x z = true.
Proof.
  unfold SFleb.
  destruct x as [s1|s1| |s1 m1 e1], y as [s2|s2| |s2 m2 e2],
    z as [s3|s3| |s3 m3 e3]; cbn; try discriminate; try reflexivity;
    repeat match goal with s : bool |- _ => destruct s end;
    try discriminate; try reflexivity;
    change (PosDef.Pos.compare_cont Eq) with Pos.compare;
    repeat match goal with
           | |- context [(?a ?= ?b)%Z] => destruct (Z.compare_spec a b)
           | |- context [(?a ?= ?b)%positive] =>
               destruct (Pos.compare_spec a b)
           end; cbn; try discriminate; try reflexivity; intros; exfalso; lia.
Qed.

(** [<=] on floats is transitive. *)
Lemma float_leb_trans (x y z : float) :
  PrimFloat.leb x y = true -> PrimFloat.leb y z = true ->
  PrimFloat.leb x z = true.
Proof. rewrite !leb_spec. apply SFleb_trans. Qed.

(** A float strictly before another is not at or after it. *)
Lemma float_ltb_not_leb (x y : float) :
  PrimFloat.ltb x y = true -> PrimFloat.leb y x = false.
Proof.
  rewrite ltb_spec, leb_spec. unfold SFltb, SFleb.
  destruct (SFcompare (Prim2SF x) (Prim2SF y)) as [c|] eqn:E; [|discriminate].
  rewrite (SFcompare_antisym _ _ _ E). destruct c; try discriminate.
  reflexivity.
Qed.

(** Two floats of which one is strictly before the other are not equal. *)
Lemma float_ltb_neq (x y : float) :
  PrimFloat.ltb x y = true ->
  PrimFloat.eqb x y = false /\ PrimFloat.eqb y x = false.
Proof.
  rewrite ltb_spec, !FloatAxioms.eqb_spec. unfold SFltb, SFeqb.
  destruct (SFcompare (Prim2SF x) (Prim2SF y)) as [c|] eqn:E; [|discriminate].
  rewrite (SFcompare_antisym _ _ _ E). destruct c; try discriminate.
  split; reflexivity.
Qed.

(** ** Basic facts *)

(** One step of the iteration, case by case. *)
Lemma next_unfold (self : ref) (w : OperationWaiter) (st : State) :
  heap st !! self = Some w ->
  __next__ self st =
    match remote (calls st) (request_of w) with
    | Fails code details =>
        (Raise (RpcError code details), failed w st)
    | Replies op =>
        if snapshot_done op then (Raise StopIteration, fetched self w op st)
        else
          match __deadline w with
          | None => (Ok tt, fetched self w op st)
          | Some deadline =>
              (if PrimFloat.leb deadline (clock (ticks st))
               then Raise StopIteration else Ok tt,
               timed (fetched self w op st))
          end
    end.
Proof.
  intros Hw.
  assert (Hlt : self < length (heap st)) by (eapply lookup_lt_Some; eauto).
  unfold __next__, done, bind, deref, Get, set_operation, request_of.
  cbn. rewrite Hw. cbn.
  destruct (remote (calls st) _) as [op|code details]; cbn; [|reflexivity].
  rewrite Hw. cbn.
  destruct (snapshot_done op); cbn; [reflexivity|].
  rewrite list_lookup_insert_eq by exact Hlt. cbn.
  destruct (__deadline w) as [deadline|]; cbn; [|reflexivity].
  unfold time_time, bind, raise, ret. cbn.
  destruct (PrimFloat.leb deadline (clock (ticks st))); reflexivity.
Qed.

(** [Poll] when the fetch is answered. *)
Lemma Poll_replies (self : ref) (w : OperationWaiter) (st : State)
    (op : option Operation) :
  heap st !! self = Some w ->
  remote (calls st) (request_of w) = Replies op ->
  Poll self st =
    (Ok (snapshot_done op || deadline_reached w (clock (ticks st))),
     polled self w op st).
Proof.
  intros Hw Hop. unfold Poll, polled, deadline_reached.
  rewrite (next_unfold self w st Hw), Hop.
  destruct (snapshot_done op); cbn; [reflexivity|].
  destruct (__deadline w) as [deadline|]; [|reflexivity].
  destruct (PrimFloat.leb deadline (clock (ticks st))); reflexivity.
Qed.

(** [Poll] when the fetch fails. *)
Lemma Poll_fails (self : ref) (w : OperationWaiter) (st : State)
    (code : Z) (details : string) :
  heap st !! self = Some w ->
  remote (calls st) (request_of w) = Fails code details ->
  Poll self st = (Raise (RpcError code details), failed w st).
Proof.
  intros Hw Hop. unfold Poll.
  rewrite (next_unfold self w st Hw), Hop. reflexivity.
Qed.

(** A poll keeps the object where it is, with the same identifier, stub and
    deadline. *)
Lemma polled_lookup (self : ref) (w : OperationWaiter)
    (op : option Operation) (st : State) :
  heap st !! self = Some w ->
  heap (polled self w op st) !! self = Some (with_operation w op).
Proof.
  intros Hw.
  assert (Hlt : self < length (heap st)) by (eapply lookup_lt_Some; eauto).
  unfold polled.
  destruct (snapshot_done op); [|destruct (__deadline w)]; cbn;
    apply list_lookup_insert_eq; exact Hlt.
Qed.

Lemma polled_calls (self : ref) (w : OperationWaiter)
    (op : option Operation) (st : State) :
  calls (polled self w op st) = S (calls st).
Proof.
  unfold polled.
  destruct (snapshot_done op); [|destruct (__deadline w)]; reflexivity.
Qed.

Lemma polled_log (self : ref) (w : OperationWaiter)
    (op : option Operation) (st : State) :
  log (polled self w op st) =
    log st ++ EvGet (request_of w) ::
      (if snapshot_done op then []
       else match __deadline w with Some _ => [EvTime] | None => [] end).
Proof.
  unfold polled.
  destruct (snapshot_done op); [|destruct (__deadline w)]; cbn;
    try reflexivity.
  rewrite <- app_assoc. reflexivity.
Qed.

Lemma polled_ticks (self : ref) (w : OperationWaiter)
    (op : option Operation) (st : State) :
  ticks (polled self w op st) =
    if snapshot_done op then ticks st
    else match __deadline w with
         | Some _ => S (ticks st)
         | None => ticks st
         end.
Proof.
  unfold polled.
  destruct (snapshot_done op); [|destruct (__deadline w)]; reflexivity.
Qed.

Lemma operation_lookup (self : ref) (w : OperationWaiter) (st : State) :
  heap st !! self = Some w ->
  operation self st = (Ok (__operation w), st).
Proof.
  intros Hw. unfold operation, bind, deref. rewrite Hw. reflexivity.
Qed.

Lemma deadline_reached_iff (w : OperationWaiter) (now : float) :
  deadline_reached w now = true <->
  exists deadline,
    __deadline w = Some deadline /\ PrimFloat.leb deadline now = true.
Proof.
  unfold deadline_reached. destruct (__deadline w) as [d|].
  - split.
    + intros H. exists d. split; [reflexivity|exact H].
    + intros (d' & Hd & H). injection Hd as ->. exact H.
  - split; [discriminate|]. intros (d' & Hd & _). discriminate.
Qed.

Lemma snapshot_done_iff (op : option Operation) :
  snapshot_done op = true <-> exists o, op = Some o /\ op_done o = true.
Proof.
  destruct op as [o|]; cbn.
  - split; [intros H; exists o; split; [reflexivity|exact H]|].
    intros (o' & Ho & H). injection Ho as ->. exact H.
  - split; [discriminate|]. intros (o' & Ho & _). discriminate.
Qed.

Lemma snapshot_not_done_iff (op : option Operation) :
  snapshot_done op = false <-> forall o, op = Some o -> op_done o = false.
Proof.
  destruct op as [o|]; cbn.
  - split; [intros H o' Ho; injection Ho as <-; exact H|].
    intros H. apply H. reflexivity.
  - split; [discriminate|reflexivity].
Qed.

(** ** One call of [Poll] *)

(** C4: every [Poll] performs exactly one fetch, first, and reads the clock
    afterwards at most once, only when the fetched message is not done and
    a deadline is set; it answers finished exactly when the fetched message
    is there with its [done] flag set, or a deadline is set and the time
    read after the fetch is at or past it; and in every case the object
    then holds, as its [__operation], the message fetched by this very
    call, its identifier, stub and deadline being what they were. *)
Theorem Poll_fetches_then_checks_deadline (self : ref) (w : OperationWaiter)
    (st : State) :
  heap st !! self = Some w ->
  match remote (calls st) {| operation_id := __operation_id w |} with
  | Replies op =>
      exists (finished : bool) (st' : State) (w' : OperationWaiter),
        Poll self st = (Ok finished, st') /\
        (finished = true <->
         (exists o, op = Some o /\ op_done o = true) \/
         exists deadline,
           __deadline w = Some deadline /\
           PrimFloat.leb deadline (clock (ticks st)) = true) /\
        calls st' = S (calls st) /\
        ((exists o, op = Some o /\ op_done o = true) ->
         ticks st' = ticks st /\
         log st' =
           log st ++ [EvGet {| operation_id := __operation_id w |}]) /\
        ((forall o, op = Some o -> op_done o = false) ->
         match __deadline w with
         | Some _ =>
             ticks st' = S (ticks st) /\
             log st' =
               log st ++
               [EvGet {| operation_id := __operation_id w |}; EvTime]
         | None =>
             ticks st' = ticks st /\
             log st' =
               log st ++ [EvGet {| operation_id := __operation_id w |}]
         end) /\
        heap st' !! self = Some w' /\
        __operation w' = op /\
        __operation_id w' = __operation_id w /\
        __operation_service w' = __operation_service w /\
        __deadline w' = __deadline w
  | Fails code details =>
      exists st' : State,
        Poll self st = (Raise (RpcError code details), st') /\
        calls st' = S (calls st) /\
        ticks st' = ticks st /\
        log st' = log st ++ [EvGet {| operation_id := __operation_id w |}] /\
        heap st' = heap st
  end.
Proof.
  intros Hw. fold (request_of w).
  destruct (remote (calls st) (request_of w)) as [op|code details] eqn:Hop.
  - exists (snapshot_done op || deadline_reached w (clock (ticks st))).
    exists (polled self w op st), (with_operation w op).
    split; [apply Poll_replies; assumption|].
    split.
    { rewrite orb_true_iff, deadline_reached_iff, snapshot_done_iff.
      reflexivity. }
    split; [apply polled_calls|].
    split.
    { intros Hdone. apply snapshot_done_iff in Hdone.
      rewrite polled_ticks, polled_log, Hdone. split; reflexivity. }
    split.
    { intros Hnot. apply snapshot_not_done_iff in Hnot.
      rewrite polled_ticks, polled_log, Hnot.
      destruct (__deadline w); split; reflexivity. }
    split; [apply polled_lookup; assumption|].
    repeat split.
  - exists (failed w st).
    split; [apply Poll_fails; assumption|].
    repeat split.
Qed.

(** C6: after a [Poll] that does not raise, [LastSnapshot] is the message
    fetched during that call, whatever [finished] was. *)
Theorem LastSnapshot_after_Poll (self : ref) (w : OperationWaiter)
    (st st' : State) (finished : bool) :
  heap st !! self = Some w ->
  Poll self st = (Ok finished, st') ->
  exists op : option Operation,
    remote (calls st) (request_of w) = Replies op /\
    LastSnapshot self st' = (Ok op, st').
Proof.
  intros Hw HP.
  destruct (remote (calls st) (request_of w)) as [op|code details] eqn:Hop.
  - rewrite (Poll_replies self w st op Hw Hop) in HP.
    injection HP as _ <-.
    exists op. split; [reflexivity|].
    unfold LastSnapshot.
    rewrite (operation_lookup self (with_operation w op));
      [reflexivity | apply polled_lookup; assumption].
  - rewrite (Poll_fails self w st code details Hw Hop) in HP. discriminate.
Qed.

(** C10: when the fetch yields no message, [Poll] does not fail: the absent
    message is stored, [done] is false, and [Poll] answers finished exactly
    when a deadline is set and has been reached. *)
Theorem Poll_absent_snapshot (self : ref) (w : OperationWaiter) (st : State) :
  heap st !! self = Some w ->
  remote (calls st) (request_of w) = Replies None ->
  exists (finished : bool) (st' : State),
    Poll self st = (Ok finished, st') /\
    done self st = (Ok false, fetched self w None st) /\
    LastSnapshot self st' = (Ok None, st') /\
    (finished = true <->
     exists deadline,
       __deadline w = Some deadline /\
       PrimFloat.leb deadline (clock (ticks st)) = true).
Proof.
  intros Hw Hop.
  exists (deadline_reached w (clock (ticks st))), (polled self w None st).
  split; [exact (Poll_replies self w st None Hw Hop)|].
  split.
  { assert (Hlt : self < length (heap st)) by (eapply lookup_lt_Some; eauto).
    unfold done, bind, deref, Get, set_operation. cbn.
    rewrite Hw. cbn. fold (request_of w). rewrite Hop. cbn.
    rewrite Hw. reflexivity. }
  split.
  { unfold LastSnapshot.
    rewrite (operation_lookup self (with_operation w None));
      [reflexivity | apply polled_lookup; assumption]. }
  apply deadline_reached_iff.
Qed.

(** ** Construction *)

Lemma lookup_snoc {A} (l : list A) (x : A) : (l ++ [x]) !! length l = Some x.
Proof.
  rewrite lookup_app_r by lia. rewrite Nat.sub_diag. reflexivity.
Qed.

(** [operation_waiter] when [sdk.client] returns. *)
Lemma operation_waiter_ok (sdk : SDK) (id : string) (timeout : option float)
    (st : State) :
  raises (log st) (EvClient sdk) = None ->
  operation_waiter sdk id timeout st =
    (Ok (length (heap st)), built sdk id timeout st).
Proof.
  intros Hc.
  unfold operation_waiter, client, outside, __init__, bind, built,
    deadline_at.
  rewrite Hc. cbn.
  destruct timeout as [t|]; cbn.
  - destruct (negb (PrimFloat.eqb t 0)); cbn; [|reflexivity].
    rewrite <- app_assoc. reflexivity.
  - reflexivity.
Qed.

(** [operation_waiter] when [sdk.client] raises: nothing is built. *)
Lemma operation_waiter_fails (sdk : SDK) (id : string)
    (timeout : option float) (st : State) (kind details : string) :
  raises (log st) (EvClient sdk) = Some (kind, details) ->
  operation_waiter sdk id timeout st =
    (Raise (Failure kind details), emit (EvClient sdk) st).
Proof.
  intros Hc. unfold operation_waiter, client, outside, bind.
  rewrite Hc. reflexivity.
Qed.

Lemma operation_waiter_inv (sdk : SDK) (id : string) (timeout : option float)
    (st : State) (self : ref) (st1 : State) :
  operation_waiter sdk id timeout st = (Ok self, st1) ->
  raises (log st) (EvClient sdk) = None /\
  self = length (heap st) /\
  st1 = built sdk id timeout st.
Proof.
  intros H. destruct (raises (log st) (EvClient sdk)) as [[kind details]|] eqn:Hc.
  - rewrite (operation_waiter_fails sdk id timeout st kind details Hc) in H.
    discriminate.
  - rewrite (operation_waiter_ok sdk id timeout st Hc) in H.
    injection H as <- <-. repeat split.
Qed.

Lemma built_lookup (sdk : SDK) (id : string) (timeout : option float)
    (st : State) :
  heap (built sdk id timeout st) !! length (heap st) =
    Some (new_waiter sdk id (deadline_at timeout (clock (ticks st)))).
Proof. apply lookup_snoc. Qed.

Lemma positive_truthy (t : float) :
  PrimFloat.ltb 0 t = true -> timeout_truthy (Some t) = true.
Proof.
  intros Ht. destruct (float_ltb_neq 0 t Ht) as (_ & Hne).
  cbn. rewrite Hne. reflexivity.
Qed.

(** ** Sequences of polls *)

Lemma with_operation_twice (w : OperationWaiter) (a b : option Operation) :
  with_operation (with_operation w a) b = with_operation w b.
Proof. reflexivity. Qed.

Lemma poll_seq_S (n : nat) (self : ref) (st : State) :
  poll_seq (S n) self st =
    (fst (Poll self st) :: fst (poll_seq n self (snd (Poll self st))),
     snd (poll_seq n self (snd (Poll self st)))).
Proof.
  cbn [poll_seq]. destruct (Poll self st) as [r st1]. cbn.
  destruct (poll_seq n self st1) as [rs st2]. reflexivity.
Qed.

(** Polling [n + 1] times is polling [n] times and once more. *)
Lemma poll_seq_snoc (n : nat) (self : ref) (st : State) :
  poll_seq (S n) self st =
    (fst (poll_seq n self st) ++ [fst (Poll self (snd (poll_seq n self st)))],
     snd (Poll self (snd (poll_seq n self st)))).
Proof.
  revert st. induction n as [|n IH]; intros st.
  - cbn. destruct (Poll self st); reflexivity.
  - rewrite poll_seq_S. rewrite IH. cbn [fst snd].
    rewrite (poll_seq_S n). reflexivity.
Qed.

Lemma poll_seq_length (n : nat) (self : ref) (st : State) :
  length (fst (poll_seq n self st)) = n.
Proof.
  revert st. induction n as [|n IH]; intros st; [reflexivity|].
  rewrite poll_seq_S. cbn. rewrite IH. reflexivity.
Qed.

(** Whatever a poll answers, it makes one round trip, reads the clock at
    most once, and leaves the object in place with its deadline. *)
Lemma Poll_state (self : ref) (w : OperationWaiter) (st : State) :
  heap st !! self = Some w ->
  calls (snd (Poll self st)) = S (calls st) /\
  ticks st <= ticks (snd (Poll self st)) /\
  exists op, heap (snd (Poll self st)) !! self = Some (with_operation w op).
Proof.
  intros Hw.
  destruct (remote (calls st) (request_of w)) as [op|code details] eqn:Hop.
  - rewrite (Poll_replies self w st op Hw Hop). cbn [snd].
    split; [apply polled_calls|].
    split.
    + rewrite polled_ticks.
      destruct (snapshot_done op); [|destruct (__deadline w)]; lia.
    + exists op. apply polled_lookup; assumption.
  - rewrite (Poll_fails self w st code details Hw Hop). cbn.
    split; [reflexivity|]. split; [lia|].
    exists (__operation w). destruct w. exact Hw.
Qed.

Lemma poll_seq_state (n : nat) (self : ref) (w : OperationWaiter)
    (st : State) :
  heap st !! self = Some w ->
  calls (snd (poll_seq n self st)) = calls st + n /\
  ticks st <= ticks (snd (poll_seq n self st)) /\
  exists op,
    heap (snd (poll_seq n self st)) !! self = Some (with_operation w op).
Proof.
  revert w st. induction n as [|n IH]; intros w st Hw.
  - cbn. split; [lia|]. split; [lia|].
    exists (__operation w). destruct w. exact Hw.
  - rewrite poll_seq_S. cbn [snd].
    destruct (Poll_state self w st Hw) as (Hc & Ht & op & Hop).
    destruct (IH _ _ Hop) as (Hc' & Ht' & op' & Hop').
    split; [lia|]. split; [lia|].
    exists op'. rewrite Hop'. reflexivity.
Qed.

(** [n] polls all answered not done: the state they end in. *)
Lemma poll_seq_pending_state (n : nat) (self : ref) (w : OperationWaiter)
    (st : State) :
  heap st !! self = Some w ->
  pending_for n w st ->
  calls (snd (poll_seq n self st)) = calls st + n /\
  ticks (snd (poll_seq n self st)) = ticks st + n * tick_step w /\
  exists op,
    heap (snd (poll_seq n self st)) !! self = Some (with_operation w op).
Proof.
  revert w st. induction n as [|n IH]; intros w st Hw Hp.
  - cbn. split; [lia|]. split; [lia|].
    exists (__operation w). destruct w. exact Hw.
  - rewrite poll_seq_S.
    destruct (Hp 0 ltac:(lia)) as (op & Hop & Hnd).
    rewrite Nat.add_0_r in Hop.
    rewrite (Poll_replies self w st op Hw Hop). cbn [snd].
    pose proof (polled_lookup self w op st Hw) as Hw1.
    assert (Hp1 : pending_for n (with_operation w op) (polled self w op st)).
    { intros i Hi. rewrite polled_calls.
      destruct (Hp (S i) ltac:(lia)) as (op' & Hop' & Hnd').
      exists op'. split; [|exact Hnd'].
      replace (S (calls st) + i) with (calls st + S i) by lia. exact Hop'. }
    destruct (IH _ _ Hw1 Hp1) as (Hc & Ht & op' & Hop').
    rewrite polled_calls in Hc. rewrite polled_ticks, Hnd in Ht.
    split; [lia|]. split.
    + rewrite Ht. unfold tick_step. cbn.
      destruct (__deadline w); lia.
    + exists op'. rewrite Hop'. reflexivity.
Qed.

(** [n] polls all answered not done, none of them with the deadline
    reached: every one answers not finished. *)
Lemma poll_seq_pending_results (n : nat) (self : ref) (w : OperationWaiter)
    (st : State) :
  heap st !! self = Some w ->
  pending_for n w st ->
  (forall i, i < n -> deadline_reached w (clock (ticks st + i)) = false) ->
  fst (poll_seq n self st) = repeat (Ok false) n.
Proof.
  revert w st. induction n as [|n IH]; intros w st Hw Hp Hd.
  - reflexivity.
  - rewrite poll_seq_S.
    destruct (Hp 0 ltac:(lia)) as (op & Hop & Hnd).
    rewrite Nat.add_0_r in Hop.
    rewrite (Poll_replies self w st op Hw Hop). cbn [fst snd].
    rewrite Hnd. specialize (Hd 0 ltac:(lia)) as Hd0.
    rewrite Nat.add_0_r in Hd0. rewrite Hd0. cbn.
    f_equal.
    apply (IH (with_operation w op)).
    + apply polled_lookup; assumption.
    + intros i Hi. rewrite polled_calls.
      destruct (Hp (S i) ltac:(lia)) as (op' & Hop' & Hnd').
      exists op'. split; [|exact Hnd'].
      replace (S (calls st) + i) with (calls st + S i) by lia. exact Hop'.
    + intros i Hi. rewrite polled_ticks, Hnd.
      unfold deadline_reached in *. cbn.
      destruct (__deadline w) as [d|]; [|reflexivity].
      replace (S (ticks st) + i) with (ticks st + S i) by lia.
      apply Hd. lia.
Qed.

(** ** The claims on timeouts and deadlines *)

(** C7: constructing with a positive timeout stores, as the deadline, the
    float [time.time() + timeout] of the clock reading taken at
    construction, and the construction succeeds whenever [sdk.client]
    does; constructing with a zero or absent timeout stores none and does
    not read the clock, and then, as long as the fetches are answered not
    done, no poll ever answers finished; no number of polls changes the
    stored deadline. *)
Theorem construction_deadline (sdk : SDK) (id : string) (st : State) :
  (forall t self st1,
     PrimFloat.ltb 0 t = true ->
     operation_waiter sdk id (Some t) st = (Ok self, st1) ->
     heap st1 !! self =
       Some (new_waiter sdk id (Some (clock (ticks st) + t)%float))) /\
  (forall t,
     PrimFloat.ltb 0 t = true ->
     raises (log st) (EvClient sdk) = None ->
     exists st1,
       operation_waiter sdk id (Some t) st = (Ok (length (heap st)), st1)) /\
  (forall timeout self st1,
     timeout = None \/
     (exists t, timeout = Some t /\ PrimFloat.eqb t 0 = true) ->
     operation_waiter sdk id timeout st = (Ok self, st1) ->
     heap st1 !! self = Some (new_waiter sdk id None) /\
     ticks st1 = ticks st /\
     forall n,
       pending_for n (new_waiter sdk id None) st1 ->
       fst (poll_seq n self st1) = repeat (Ok false) n) /\
  (forall timeout self st1 w n,
     operation_waiter sdk id timeout st = (Ok self, st1) ->
     heap st1 !! self = Some w ->
     exists w',
       heap (snd (poll_seq n self st1)) !! self = Some w' /\
       __deadline w' = __deadline w).
Proof.
  split; [|split; [|split]].
  - intros t self st1 Ht Hinit.
    destruct (operation_waiter_inv _ _ _ _ _ _ Hinit) as (_ & -> & ->).
    rewrite built_lookup. unfold deadline_at.
    rewrite (positive_truthy t Ht). reflexivity.
  - intros t _ Hc. eexists. apply operation_waiter_ok, Hc.
  - intros timeout self st1 Hto Hinit.
    destruct (operation_waiter_inv _ _ _ _ _ _ Hinit) as (_ & -> & ->).
    assert (Hf : timeout_truthy timeout = false).
    { destruct Hto as [->|(t & -> & Ht)]; [reflexivity|].
      cbn. rewrite Ht. reflexivity. }
    assert (Hd : deadline_at timeout (clock (ticks st)) = None).
    { unfold deadline_at. destruct timeout; [rewrite Hf|]; reflexivity. }
    assert (Hw : heap (built sdk id timeout st) !! length (heap st) =
                 Some (new_waiter sdk id None)).
    { rewrite built_lookup, Hd. reflexivity. }
    split; [exact Hw|].
    split; [cbn; rewrite Hf; reflexivity|].
    intros n Hp. eapply poll_seq_pending_results.
    + exact Hw.
    + exact Hp.
    + reflexivity.
  - intros timeout self st1 w n _ Hw.
    destruct (poll_seq_state n self w st1 Hw) as (_ & _ & op & Hop).
    exists (with_operation w op). split; [exact Hop|reflexivity].
Qed.

(** C3: with a timeout [t > 0] and a service that always answers with a
    message that is not done, the poll number [n + 1] checks the deadline
    against the clock reading number [n] after construction; it answers not
    finished when that reading is strictly before the float construction
    time plus [t] that the code stores, and finished when it is at or after
    it, the stored message then being one that is not done. *)
Theorem timeout_path (sdk : SDK) (id : string) (t : float) (st : State)
    (self : ref) (st1 : State) (n : nat) :
  PrimFloat.ltb 0 t = true ->
  operation_waiter sdk id (Some t) st = (Ok self, st1) ->
  (forall i req,
     exists op, remote i req = Replies (Some op) /\ op_done op = false) ->
  exists (finished : bool) (st' : State),
    Poll self (snd (poll_seq n self st1)) = (Ok finished, st') /\
    ticks (snd (poll_seq n self st1)) = ticks st1 + n /\
    ticks st' = S (ticks st1 + n) /\
    (PrimFloat.ltb (clock (ticks st1 + n)) (clock (ticks st) + t) = true ->
     finished = false) /\
    (PrimFloat.leb (clock (ticks st) + t) (clock (ticks st1 + n)) = true ->
     finished = true) /\
    exists op,
      LastSnapshot self st' = (Ok (Some op), st') /\ op_done op = false.
Proof.
  intros Ht Hinit Hrem.
  destruct (operation_waiter_inv _ _ _ _ _ _ Hinit) as (_ & -> & ->).
  set (w := new_waiter sdk id (Some (clock (ticks st) + t)%float)).
  set (st1 := built sdk id (Some t) st).
  assert (Hw : heap st1 !! length (heap st) = Some w).
  { subst st1 w. rewrite built_lookup. unfold deadline_at.
    rewrite (positive_truthy t Ht). reflexivity. }
  assert (Ht1 : ticks st1 = S (ticks st)).
  { subst st1. cbn [built ticks]. rewrite (positive_truthy t Ht).
    reflexivity. }
  assert (Hp : pending_for n w st1).
  { intros i _. destruct (Hrem (calls st1 + i) (request_of w))
      as (op & Hop & Hnd).
    exists (Some op). split; assumption. }
  destruct (poll_seq_pending_state n _ w st1 Hw Hp) as (Hc & Htk & op0 & Hw').
  set (stn := snd (poll_seq n (length (heap st)) st1)) in *.
  destruct (Hrem (calls stn) (request_of w)) as (op & Hop & Hnd).
  pose proof (Poll_replies _ _ stn (Some op) Hw' Hop) as HP. cbn in HP.
  rewrite Hnd in HP. cbn in HP.
  assert (Htk' : ticks stn = ticks st1 + n).
  { rewrite Htk. cbn. lia. }
  eexists _, _. split; [exact HP|].
  split; [exact Htk'|].
  split.
  { rewrite polled_ticks. cbn. rewrite Hnd, Htk'. reflexivity. }
  unfold deadline_reached. cbn [with_operation __deadline w new_waiter].
  rewrite Htk'.
  split; [apply float_ltb_not_leb|].
  split; [intros H; exact H|].
  exists op. split; [|exact Hnd].
  unfold LastSnapshot.
  rewrite (operation_lookup _ (with_operation (with_operation w op0) (Some op)));
    [reflexivity | apply polled_lookup; exact Hw'].
Qed.

(** C2, amended: for every timeout, when the fetches 1 to [k - 1] are
    answered not done and the [k]-th is answered done, and, if the waiter
    holds a deadline, the deadline check of each of the polls 1 to [k - 1]
    reads a time strictly before that deadline, the polls 1 to [k - 1]
    answer not finished and the [k]-th answers finished. *)
Theorem done_on_kth_fetch (sdk : SDK) (id : string) (timeout : option float)
    (st : State) (self : ref) (st1 : State) (k : nat) :
  0 < k ->
  operation_waiter sdk id timeout st = (Ok self, st1) ->
  (forall i, i + 1 < k ->
     exists op,
       remote (calls st1 + i) {| operation_id := id |} = Replies op /\
       snapshot_done op = false) ->
  (exists op,
     remote (calls st1 + (k - 1)) {| operation_id := id |} = Replies op /\
     snapshot_done op = true) ->
  (forall w deadline i,
     heap st1 !! self = Some w -> __deadline w = Some deadline ->
     i + 1 < k ->
     PrimFloat.ltb (clock (ticks st1 + i)) deadline = true) ->
  fst (poll_seq k self st1) = repeat (Ok false) (k - 1) ++ [Ok true].
Proof.
  intros Hk Hinit Hpend (opk & Hopk & Hdone) Hclock.
  destruct k as [|n]; [lia|]. clear Hk.
  replace (S n - 1) with n in * by lia.
  destruct (operation_waiter_inv _ _ _ _ _ _ Hinit) as (_ & -> & ->).
  set (st1 := built sdk id timeout st) in *.
  set (w := new_waiter sdk id (deadline_at timeout (clock (ticks st)))).
  assert (Hw : heap st1 !! length (heap st) = Some w) by apply built_lookup.
  assert (Hnot : forall i, i < n ->
            deadline_reached w (clock (ticks st1 + i)) = false).
  { intros i Hi. unfold deadline_reached.
    destruct (__deadline w) as [d|] eqn:Hd; [|reflexivity].
    apply float_ltb_not_leb, (Hclock w d i Hw Hd). lia. }
  assert (Hreq : request_of w = {| operation_id := id |}) by reflexivity.
  assert (Hp : pending_for n w st1).
  { intros i Hi. rewrite Hreq. apply Hpend. lia. }
  rewrite poll_seq_snoc. cbn [fst].
  rewrite (poll_seq_pending_results n _ w st1 Hw Hp Hnot).
  destruct (poll_seq_pending_state n _ w st1 Hw Hp) as (Hc & _ & op0 & Hw').
  f_equal.
  rewrite (Poll_replies _ _ _ opk Hw').
  - cbn. rewrite Hdone. reflexivity.
  - rewrite Hc. change (request_of (with_operation w op0)) with (request_of w).
    rewrite Hreq. exact Hopk.
Qed.

(** ** There is no stored terminal state *)

Lemma poll_seq_add (n m : nat) (self : ref) (st : State) :
  poll_seq (n + m) self st =
    (fst (poll_seq n self st) ++ fst (poll_seq m self (snd (poll_seq n self st))),
     snd (poll_seq m self (snd (poll_seq n self st)))).
Proof.
  revert st. induction n as [|n IH]; intros st.
  - cbn. destruct (poll_seq m self st); reflexivity.
  - cbn [Nat.add]. rewrite poll_seq_S, IH. cbn [fst snd].
    rewrite (poll_seq_S n). reflexivity.
Qed.

(** The answer number [i] of a run of polls is the answer of [Poll] in the
    state the first [i] polls leave. *)
Lemma poll_seq_lookup (n i : nat) (self : ref) (st : State) :
  i < n ->
  fst (poll_seq n self st) !! i =
    Some (fst (Poll self (snd (poll_seq i self st)))).
Proof.
  intros Hi.
  replace n with (S i + (n - S i)) by lia.
  rewrite poll_seq_add. cbn [fst].
  rewrite lookup_app_l by (rewrite poll_seq_length; lia).
  rewrite poll_seq_snoc. cbn [fst].
  rewrite lookup_app_r by (rewrite poll_seq_length; lia).
  rewrite poll_seq_length, Nat.sub_diag. reflexivity.
Qed.

(** C9, amended: when the clock never goes back and the service, once it
    has answered a request with a done message, answers it with done
    messages ever after, every poll that follows a poll answering finished
    answers finished too, unless its fetch raises. *)
Theorem finished_stays_finished (self : ref) (w : OperationWaiter)
    (st : State) (n i j : nat) (finished : bool) :
  heap st !! self = Some w ->
  (forall a b, a <= b -> PrimFloat.leb (clock a) (clock b) = true) ->
  (forall a b req op op',
     a <= b -> remote a req = Replies op -> snapshot_done op = true ->
     remote b req = Replies op' -> snapshot_done op' = true) ->
  i < j ->
  fst (poll_seq n self st) !! i = Some (Ok true) ->
  fst (poll_seq n self st) !! j = Some (Ok finished) ->
  finished = true.
Proof.
  intros Hw Hmono Hstable Hij Hi Hj.
  assert (Hjn : j < n).
  { apply lookup_lt_Some in Hj. rewrite poll_seq_length in Hj. exact Hj. }
  rewrite poll_seq_lookup in Hi by lia.
  rewrite poll_seq_lookup in Hj by lia.
  injection Hi as Hi. injection Hj as Hj.
  destruct (poll_seq_state i self w st Hw) as (Hci & _ & opi & Hwi).
  set (sti := snd (poll_seq i self st)) in *.
  assert (Hstj : snd (poll_seq j self st) = snd (poll_seq (j - i) self sti)).
  { replace j with (i + (j - i)) at 1 by lia. rewrite poll_seq_add.
    reflexivity. }
  destruct (poll_seq_state (j - i) self _ sti Hwi) as (Hcj & Htj & opj & Hwj).
  rewrite <- Hstj in Hcj, Htj, Hwj. rewrite with_operation_twice in Hwj.
  set (stj := snd (poll_seq j self st)) in *.
  destruct (remote (calls sti) (request_of w)) as [ri|c d] eqn:Hri.
  2:{ rewrite (Poll_fails self _ sti c d Hwi Hri) in Hi. discriminate. }
  rewrite (Poll_replies self _ sti ri Hwi Hri) in Hi. cbn in Hi.
  destruct (remote (calls stj) (request_of w)) as [rj|c d] eqn:Hrj.
  2:{ rewrite (Poll_fails self _ stj c d Hwj Hrj) in Hj. discriminate. }
  rewrite (Poll_replies self _ stj rj Hwj Hrj) in Hj. cbn in Hj.
  injection Hi as Hi. injection Hj as Hj. subst finished.
  apply orb_true_iff in Hi. apply orb_true_iff.
  destruct Hi as [Hd|Hd].
  - left. apply (Hstable (calls sti) (calls stj) (request_of w) ri rj);
      [lia|assumption..].
  - right. unfold deadline_reached in *. cbn in *.
    destruct (__deadline w) as [dl|]; [|discriminate].
    eapply float_leb_trans; [exact Hd|]. apply Hmono. lia.
Qed.

(** ** The loop of [wait_for_operation] *)

Lemma next_dangling (self : ref) (st : State) :
  heap st !! self = None ->
  __next__ self st = (Raise DanglingReference, st).
Proof.
  intros Hw. unfold __next__, done, bind, deref. rewrite Hw. reflexivity.
Qed.

(** A step of the iteration touches no other object. *)
Lemma next_frame (self j : ref) (st : State) :
  j <> self ->
  heap (snd (__next__ self st)) !! j = heap st !! j.
Proof.
  intros Hj. destruct (heap st !! self) as [w|] eqn:Hw.
  - rewrite (next_unfold self w st Hw).
    destruct (remote (calls st) (request_of w)) as [op|c d]; [|reflexivity].
    destruct (snapshot_done op); [|destruct (__deadline w)]; cbn;
      apply list_lookup_insert_ne; congruence.
  - rewrite (next_dangling self st Hw). reflexivity.
Qed.

(** A step of the iteration logs only events of the waiter. *)
Lemma next_log (self : ref) (st : State) :
  exists p,
    log (snd (__next__ self st)) = log st ++ p /\
    forallb waiter_event p = true.
Proof.
  destruct (heap st !! self) as [w|] eqn:Hw.
  - rewrite (next_unfold self w st Hw).
    destruct (remote (calls st) (request_of w)) as [op|c d].
    + destruct (snapshot_done op); [|destruct (__deadline w)]; cbn.
      * eexists. split; reflexivity.
      * exists [EvGet (request_of w); EvTime].
        rewrite <- app_assoc. split; reflexivity.
      * eexists. split; reflexivity.
    + eexists. split; reflexivity.
  - rewrite (next_dangling self st Hw). exists [].
    rewrite app_nil_r. split; reflexivity.
Qed.

(** A step of the iteration does not read the log. *)
Lemma next_world_eq (self : ref) (st1 st2 : State) :
  world_eq st1 st2 ->
  fst (__next__ self st1) = fst (__next__ self st2) /\
  world_eq (snd (__next__ self st1)) (snd (__next__ self st2)).
Proof.
  intros (Hh & Hc & Ht).
  destruct (heap st1 !! self) as [w|] eqn:Hw.
  - assert (Hw2 : heap st2 !! self = Some w) by (rewrite <- Hh; exact Hw).
    rewrite (next_unfold self w st1 Hw), (next_unfold self w st2 Hw2).
    rewrite Hc, Ht.
    destruct (remote (calls st2) (request_of w)) as [op|c d].
    + destruct (snapshot_done op); [|destruct (__deadline w)];
        unfold world_eq; cbn; rewrite Hh, ?Hc, ?Ht; repeat split.
    + unfold world_eq. cbn. rewrite Hc. repeat split; assumption.
  - assert (Hw2 : heap st2 !! self = None) by (rewrite <- Hh; exact Hw).
    rewrite (next_dangling self st1 Hw), (next_dangling self st2 Hw2).
    split; [reflexivity|]. repeat split; assumption.
Qed.

Lemma Poll_next (self : ref) (st : State) :
  fst (Poll self st) =
    match fst (__next__ self st) with
    | Ok _ => Ok false
    | Raise StopIteration => Ok true
    | Raise e => Raise e
    | OutOfFuel => OutOfFuel
    end /\
  snd (Poll self st) = snd (__next__ self st).
Proof.
  unfold Poll. destruct (__next__ self st) as [[u|e|] st'];
    [| destruct e |]; split; reflexivity.
Qed.

Lemma poll_seq_world_eq (n : nat) (self : ref) (st1 st2 : State) :
  world_eq st1 st2 ->
  fst (poll_seq n self st1) = fst (poll_seq n self st2) /\
  world_eq (snd (poll_seq n self st1)) (snd (poll_seq n self st2)).
Proof.
  revert st1 st2. induction n as [|n IH]; intros st1 st2 Heq.
  - split; [reflexivity|exact Heq].
  - rewrite !poll_seq_S. cbn [fst snd].
    destruct (next_world_eq self st1 st2 Heq) as (Hr & Hs).
    destruct (Poll_next self st1) as (Hp1 & Hq1).
    destruct (Poll_next self st2) as (Hp2 & Hq2).
    rewrite Hq1, Hq2. destruct (IH _ _ Hs) as (Hrs & Hss).
    split; [|exact Hss].
    rewrite Hp1, Hp2, Hr, Hrs. reflexivity.
Qed.

(** A call to the outside either returns or raises what the world
    says. *)
Lemma outside_cases (ev : Event) (st : State) :
  (raises (log st) ev = None /\ outside ev st = (Ok tt, emit ev st)) \/
  (exists kind details,
     raises (log st) ev = Some (kind, details) /\
     outside ev st = (Raise (Failure kind details), emit ev st)).
Proof.
  unfold outside. destruct (raises (log st) ev) as [[kind details]|].
  - right. exists kind, details. split; reflexivity.
  - left. split; reflexivity.
Qed.

Lemma outside_event_sleep (sdk : SDK) (print_to_stream : option Stream) :
  outside_event sdk print_to_stream (EvSleep 1).
Proof. right. left. reflexivity. Qed.

Lemma outside_event_bool (sdk : SDK) (s : Stream) :
  outside_event sdk (Some s) (EvBool s).
Proof. right. right. exists s. split; [reflexivity|left; reflexivity]. Qed.

Lemma outside_event_write (sdk : SDK) (s : Stream) :
  outside_event sdk (Some s) (EvWrite s ".").
Proof.
  right. right. exists s. split; [reflexivity|right; left; reflexivity].
Qed.

Lemma outside_event_flush (sdk : SDK) (s : Stream) :
  outside_event sdk (Some s) (EvFlush s).
Proof.
  right. right. exists s. split; [reflexivity|right; right; reflexivity].
Qed.

(** The body of the loop changes nothing but the log; it logs calls on the
    stream and the sleep only; when it returns it has logged the part of
    the stream and the sleep, and when it raises, the exception is what the
    world answered to the last call logged. *)
Lemma loop_body_spec (sdk : SDK) (print_to_stream : option Stream)
    (st : State) :
  exists (q : list Event),
    world_eq (snd (loop_body print_to_stream st)) st /\
    log (snd (loop_body print_to_stream st)) = log st ++ q /\
    Forall (outside_event sdk print_to_stream) q /\
    ((fst (loop_body print_to_stream st) = Ok tt /\
      q = stream_part print_to_stream (stream_test print_to_stream (log st))
            ++ [EvSleep 1]) \/
     (exists history ev kind details,
        fst (loop_body print_to_stream st) = Raise (Failure kind details) /\
        log st ++ q = history ++ [ev] /\
        outside_event sdk print_to_stream ev /\
        raises history ev = Some (kind, details))).
Proof.
  pose proof (outside_event_sleep sdk print_to_stream) as Es.
  destruct print_to_stream as [s|].
  - pose proof (outside_event_bool sdk s) as Eb.
    pose proof (outside_event_write sdk s) as Ew.
    pose proof (outside_event_flush sdk s) as Ef.
    unfold loop_body, bind, stream_bool, stream_write, stream_flush,
      time_sleep, outside, ret.
    destruct (raises (log st) (EvBool s)) as [[k0 d0]|] eqn:R0.
    { exists [EvBool s]. cbn. split; [repeat split|].
      split; [reflexivity|]. split; [all_events|].
      right. exists (log st), (EvBool s), k0, d0. repeat split; assumption. }
    cbn [stream_test]. destruct (truthy (log st) s).
    + destruct (raises (log (emit (EvBool s) st)) (EvWrite s "."))
        as [[k1 d1]|] eqn:R1.
      { exists [EvBool s; EvWrite s "."]. cbn in *.
        split; [repeat split|].
        split; [rewrite <- app_assoc; reflexivity|].
        split; [all_events|].
        right. exists (log st ++ [EvBool s]), (EvWrite s "."), k1, d1.
        split; [reflexivity|]. split; [rewrite <- app_assoc; reflexivity|].
        split; assumption. }
      destruct (raises (log (emit (EvWrite s ".") (emit (EvBool s) st)))
                  (EvFlush s)) as [[k2 d2]|] eqn:R2.
      { exists [EvBool s; EvWrite s "."; EvFlush s]. cbn in *.
        split; [repeat split|].
        split; [rewrite <- !app_assoc; reflexivity|].
        split; [all_events|].
        right.
        exists ((log st ++ [EvBool s]) ++ [EvWrite s "."]), (EvFlush s),
          k2, d2.
        split; [reflexivity|]. split; [rewrite <- !app_assoc; reflexivity|].
        split; assumption. }
      destruct (raises (log (emit (EvFlush s) (emit (EvWrite s ".")
                                (emit (EvBool s) st)))) (EvSleep 1))
        as [[k3 d3]|] eqn:R3.
      { exists [EvBool s; EvWrite s "."; EvFlush s; EvSleep 1]. cbn in *.
        split; [repeat split|].
        split; [rewrite <- !app_assoc; reflexivity|].
        split; [all_events|].
        right.
        exists (((log st ++ [EvBool s]) ++ [EvWrite s "."]) ++ [EvFlush s]),
          (EvSleep 1), k3, d3.
        split; [reflexivity|]. split; [rewrite <- !app_assoc; reflexivity|].
        split; assumption. }
      exists [EvBool s; EvWrite s "."; EvFlush s; EvSleep 1]. cbn.
      split; [repeat split|].
      split; [rewrite <- !app_assoc; reflexivity|].
      split; [all_events|].
      left. split; reflexivity.
    + destruct (raises (log (emit (EvBool s) st)) (EvSleep 1))
        as [[k3 d3]|] eqn:R3.
      { exists [EvBool s; EvSleep 1]. cbn in *.
        split; [repeat split|].
        split; [rewrite <- !app_assoc; reflexivity|].
        split; [all_events|].
        right. exists (log st ++ [EvBool s]), (EvSleep 1), k3, d3.
        split; [reflexivity|]. split; [rewrite <- !app_assoc; reflexivity|].
        split; assumption. }
      exists [EvBool s; EvSleep 1]. cbn.
      split; [repeat split|].
      split; [rewrite <- !app_assoc; reflexivity|].
      split; [all_events|].
      left. split; reflexivity.
  - unfold loop_body, bind, time_sleep, outside, ret.
    destruct (raises (log st) (EvSleep 1)) as [[k3 d3]|] eqn:R3.
    + exists [EvSleep 1]. cbn. split; [repeat split|].
      split; [reflexivity|]. split; [all_events|].
      right. exists (log st), (EvSleep 1), k3, d3. repeat split; assumption.
    + exists [EvSleep 1]. cbn. split; [repeat split|].
      split; [reflexivity|]. split; [all_events|].
      left. split; reflexivity.
Qed.

Lemma loop_body_world_eq (print_to_stream : option Stream) (st : State) :
  world_eq (snd (loop_body print_to_stream st)) st.
Proof.
  destruct (loop_body_spec (MkSDK "") print_to_stream st) as (q & H & _).
  exact H.
Qed.

(** When nothing raises, the body of the loop returns. *)
Lemma loop_body_ok (print_to_stream : option Stream) (st : State) :
  no_raises ->
  exists st',
    loop_body print_to_stream st = (Ok tt, st') /\
    world_eq st' st /\
    log st' = log st ++
              stream_part print_to_stream
                (stream_test print_to_stream (log st)) ++ [EvSleep 1].
Proof.
  intros Hno.
  destruct (loop_body_spec (MkSDK "") print_to_stream st)
    as (q & Hw & Hlog & _ & [(Hr & Hq)|(h & ev & k & d & _ & _ & _ & R)]).
  - destruct (loop_body print_to_stream st) as [r st'] eqn:E.
    cbn [fst snd] in *. subst r q. exists st'.
    split; [reflexivity|]. split; assumption.
  - rewrite Hno in R. discriminate.
Qed.

(** The loop touches no object but the one it iterates. *)
Lemma for_loop_frame (fuel : nat) (it j : ref)
    (print_to_stream : option Stream) (st : State) :
  j <> it ->
  heap (snd (for_loop fuel it print_to_stream st)) !! j = heap st !! j.
Proof.
  intros Hj. revert st. induction fuel as [|fuel IH]; intros st.
  - reflexivity.
  - cbn [for_loop].
    pose proof (next_frame it j st Hj) as Hn.
    destruct (__next__ it st) as [[u|e|] st1]; cbn [snd] in Hn.
    + unfold bind at 1.
      destruct (loop_body_world_eq print_to_stream st1) as (Hh & _).
      destruct (loop_body print_to_stream st1) as [[u'|e'|] st1b];
        cbn [snd] in *.
      * rewrite IH, Hh. exact Hn.
      * rewrite Hh. exact Hn.
      * rewrite Hh. exact Hn.
    + destruct e; exact Hn.
    + exact Hn.
Qed.

Lemma sink_events_app (s : Stream) (l1 l2 : list Event) :
  sink_events s (l1 ++ l2) = sink_events s l1 ++ sink_events s l2.
Proof. unfold sink_events. apply List.filter_app. Qed.

Lemma sink_events_waiter (s : Stream) (p : list Event) :
  forallb waiter_event p = true -> sink_events s p = [].
Proof.
  induction p as [|ev p IH]; [reflexivity|].
  cbn [forallb]. intros H. apply andb_true_iff in H as (Hev & Hp).
  destruct ev; try discriminate; cbn; apply IH, Hp.
Qed.

Lemma sink_events_iterations (s : Stream) (polls : list (list Event)) :
  Forall (fun p => forallb waiter_event p = true) polls ->
  sink_events s (concat (map (iteration s) polls)) = markers s (length polls).
Proof.
  induction 1 as [|p polls Hp _ IH]; [reflexivity|].
  cbn [map concat length]. unfold iteration at 1.
  rewrite !sink_events_app, (sink_events_waiter s p Hp), IH.
  cbn. rewrite !bool_decide_eq_true_2 by reflexivity. reflexivity.
Qed.

(** A run of the loop when nothing raises: when the polls of the iterated
    object answer not finished [n] times and then [r], the loop makes
    exactly these [n + 1] polls (given the fuel), and its log is [n] turns,
    each a poll followed by the part of the stream and the sleep, and then
    the last poll alone. [B] is any property of the truth values the
    stream can answer. *)
Lemma for_loop_turns (it : ref) (print_to_stream : option Stream)
    (B : bool -> Prop) (n : nat) :
  no_raises ->
  (forall history, B (stream_test print_to_stream history)) ->
  forall (st : State) (fuel : nat) (r : Result bool),
    fst (poll_seq (S n) it st) = repeat (Ok false) n ++ [r] ->
    r <> Ok false ->
    n < fuel ->
    exists (st' : State) (turns : list (bool * list Event))
           (last : list Event),
      for_loop fuel it print_to_stream st = (loop_outcome r, st') /\
      length turns = n /\
      Forall (fun bp => B (fst bp) /\ forallb waiter_event (snd bp) = true)
        turns /\
      forallb waiter_event last = true /\
      log st' = log st ++ concat (map (turn_of print_to_stream) turns)
                  ++ last /\
      world_eq st' (snd (poll_seq (S n) it st)).
Proof.
  intros Hno HB.
  induction n as [|n IH]; intros st fuel r Hseq Hr Hfuel.
  - destruct fuel as [|fuel]; [lia|].
    rewrite poll_seq_S in Hseq. cbn in Hseq. injection Hseq as Hseq.
    rewrite poll_seq_S. cbn [snd poll_seq].
    destruct (Poll_next it st) as (Hp & Hq). rewrite Hq.
    rewrite Hp in Hseq.
    destruct (next_log it st) as (p & Hlog & Hwp).
    cbn [for_loop].
    destruct (__next__ it st) as [[u|e|] st1]; cbn [fst snd] in *.
    + congruence.
    + exists st1, [], p. subst r.
      split; [destruct e; reflexivity|].
      split; [reflexivity|].
      split; [constructor|].
      split; [exact Hwp|].
      split; [exact Hlog|]. repeat split.
    + exists st1, [], p. subst r.
      split; [reflexivity|]. split; [reflexivity|].
      split; [constructor|].
      split; [exact Hwp|].
      split; [exact Hlog|]. repeat split.
  - destruct fuel as [|fuel]; [lia|].
    rewrite poll_seq_S in Hseq. cbn [fst repeat app] in Hseq.
    injection Hseq as Hhd Hseq.
    rewrite (poll_seq_S (S n)). cbn [snd].
    destruct (Poll_next it st) as (Hp & Hq). rewrite Hq in *.
    rewrite Hp in Hhd.
    destruct (next_log it st) as (p & Hlog & Hwp).
    cbn [for_loop].
    destruct (__next__ it st) as [[u|e|] st1]; cbn [fst snd] in *;
      [| destruct e; discriminate | discriminate].
    unfold bind at 1.
    destruct (loop_body_ok print_to_stream st1 Hno)
      as (st1b & -> & Heq & Hlogb).
    destruct (poll_seq_world_eq (S n) it st1b st1 Heq) as (Hrs & Hws).
    assert (Hseq' : fst (poll_seq (S n) it st1b) = repeat (Ok false) n ++ [r])
      by (rewrite Hrs; exact Hseq).
    destruct (IH st1b fuel r Hseq' Hr ltac:(lia))
      as (st' & turns & last & Hrun & Hlen & Hall & Hlast & Hlog' & Hw').
    exists st', ((stream_test print_to_stream (log st1), p) :: turns), last.
    split; [exact Hrun|].
    split; [cbn; lia|].
    split.
    { constructor; [|exact Hall]. split; [apply HB|exact Hwp]. }
    split; [exact Hlast|].
    split.
    { rewrite Hlog', Hlogb, Hlog.
      cbn [map concat]. unfold turn_of at 2, turn. cbn [fst snd].
      rewrite <- !app_assoc. reflexivity. }
    destruct Hw' as (Ha & Hb & Hc). destruct Hws as (Ha' & Hb' & Hc').
    repeat split; congruence.
Qed.

(** Turns on a stream that tests true each time. *)
Lemma turns_iterations (s : Stream) (turns : list (bool * list Event)) :
  Forall (fun bp => fst bp = true /\ forallb waiter_event (snd bp) = true)
    turns ->
  concat (map (turn_of (Some s)) turns) =
    concat (map (iteration s) (map snd turns)) /\
  Forall (fun p => forallb waiter_event p = true) (map snd turns).
Proof.
  induction 1 as [|[b p] turns (Hb & Hp) _ (IH1 & IH2)].
  - split; [reflexivity|constructor].
  - cbn in Hb, Hp. subst b. cbn [map concat snd]. rewrite IH1.
    split; [reflexivity|]. constructor; assumption.
Qed.

(** [wait_for_operation] in terms of its loop: two objects are built, the
    second one is iterated, and the value returned is the [operation] of the
    first, which nothing has polled. *)
Lemma wait_for_operation_unfold (fuel : nat) (sdk : SDK) (id : string)
    (timeout : option float) (print_to_stream : option Stream)
    (st st1 st2 : State) (waiter it : ref) :
  operation_waiter sdk id timeout st = (Ok waiter, st1) ->
  operation_waiter sdk id timeout st1 = (Ok it, st2) ->
  waiter <> it /\
  wait_for_operation fuel sdk id timeout print_to_stream st =
    match for_loop fuel it print_to_stream st2 with
    | (Ok _, st3) => (Ok None, st3)
    | (Raise e, st3) => (Raise e, st3)
    | (OutOfFuel, st3) => (OutOfFuel, st3)
    end.
Proof.
  intros H1 H2.
  destruct (operation_waiter_inv _ _ _ _ _ _ H1) as (_ & -> & Hst1).
  destruct (operation_waiter_inv _ _ _ _ _ _ H2) as (_ & -> & Hst2).
  assert (Hh1 : heap st1 =
                heap st ++ [new_waiter sdk id
                              (deadline_at timeout (clock (ticks st)))])
    by (rewrite Hst1; reflexivity).
  assert (Hh2 : heap st2 =
                heap st1 ++ [new_waiter sdk id
                               (deadline_at timeout (clock (ticks st1)))])
    by (rewrite Hst2; reflexivity).
  assert (Hne : length (heap st) <> length (heap st1)).
  { rewrite Hh1, length_app. cbn. lia. }
  split; [exact Hne|].
  unfold wait_for_operation, __iter__.
  unfold bind at 1. rewrite H1.
  unfold bind at 1. rewrite H2.
  unfold bind at 1. unfold ret at 1. unfold bind at 1.
  pose proof (for_loop_frame fuel _ _ print_to_stream st2 Hne) as Hfr.
  destruct (for_loop fuel (length (heap st1)) print_to_stream st2)
    as [[u|e|] st3] eqn:E3; try reflexivity.
  cbn [snd] in Hfr.
  assert (Hl : heap st3 !! length (heap st) =
               Some (new_waiter sdk id
                       (deadline_at timeout (clock (ticks st))))).
  { etransitivity; [exact Hfr|]. rewrite Hh2, Hh1.
    rewrite lookup_app_l by (rewrite length_app; cbn; lia).
    apply lookup_snoc. }
  rewrite (operation_lookup _ _ st3 Hl). reflexivity.
Qed.

(** How a call of [wait_for_operation] goes: the first [sdk.client] raises,
    or the second does, or both objects are built and the loop runs on the
    second. *)
Lemma wait_for_operation_cases (fuel : nat) (sdk : SDK) (id : string)
    (timeout : option float) (print_to_stream : option Stream) (st : State) :
  (exists kind details,
     raises (log st) (EvClient sdk) = Some (kind, details) /\
     wait_for_operation fuel sdk id timeout print_to_stream st =
       (Raise (Failure kind details), emit (EvClient sdk) st)) \/
  (exists kind details,
     raises (log st) (EvClient sdk) = None /\
     raises (log (built sdk id timeout st)) (EvClient sdk) =
       Some (kind, details) /\
     wait_for_operation fuel sdk id timeout print_to_stream st =
       (Raise (Failure kind details),
        emit (EvClient sdk) (built sdk id timeout st))) \/
  (operation_waiter sdk id timeout st =
     (Ok (length (heap st)), built sdk id timeout st) /\
   operation_waiter sdk id timeout (built sdk id timeout st) =
     (Ok (S (length (heap st))),
      built sdk id timeout (built sdk id timeout st)) /\
   wait_for_operation fuel sdk id timeout print_to_stream st =
     match for_loop fuel (S (length (heap st))) print_to_stream
             (built sdk id timeout (built sdk id timeout st)) with
     | (Ok _, st3) => (Ok None, st3)
     | (Raise e, st3) => (Raise e, st3)
     | (OutOfFuel, st3) => (OutOfFuel, st3)
     end).
Proof.
  destruct (raises (log st) (EvClient sdk)) as [[k d]|] eqn:R1.
  { left. exists k, d. split; [reflexivity|].
    unfold wait_for_operation. unfold bind at 1.
    rewrite (operation_waiter_fails sdk id timeout st k d R1). reflexivity. }
  right.
  pose proof (operation_waiter_ok sdk id timeout st R1) as E1.
  set (st1 := built sdk id timeout st) in *.
  destruct (raises (log st1) (EvClient sdk)) as [[k d]|] eqn:R2.
  { left. exists k, d. split; [reflexivity|]. split; [reflexivity|].
    unfold wait_for_operation. unfold bind at 1. rewrite E1.
    unfold bind at 1.
    rewrite (operation_waiter_fails sdk id timeout st1 k d R2). reflexivity. }
  right.
  pose proof (operation_waiter_ok sdk id timeout st1 R2) as E2.
  assert (Hlen : length (heap st1) = S (length (heap st))).
  { subst st1. cbn. rewrite length_app. cbn. lia. }
  rewrite Hlen in E2.
  split; [exact E1|]. split; [exact E2|].
  apply (wait_for_operation_unfold fuel sdk id timeout print_to_stream
           st st1 _ _ _ E1 E2).
Qed.

(** The object the loop of [wait_for_operation] iterates. *)
Lemma built_twice_lookup (sdk : SDK) (id : string) (timeout : option float)
    (st : State) :
  heap (built sdk id timeout (built sdk id timeout st))
    !! S (length (heap st)) =
    Some (new_waiter sdk id
            (deadline_at timeout (clock (ticks (built sdk id timeout st))))).
Proof.
  replace (S (length (heap st)))
    with (length (heap (built sdk id timeout st))).
  - apply built_lookup.
  - cbn. rewrite length_app. cbn. lia.
Qed.

(** X1: whenever [wait_for_operation] returns, whatever the service, the
    clock, the timeout and the stream, the value it returns is [None]. *)
Lemma wait_for_operation_returns_None (fuel : nat) (sdk : SDK) (id : string)
    (timeout : option float) (print_to_stream : option Stream)
    (st st' : State) (r : option Operation) :
  wait_for_operation fuel sdk id timeout print_to_stream st = (Ok r, st') ->
  r = None.
Proof.
  destruct (wait_for_operation_cases fuel sdk id timeout print_to_stream st)
    as [(k & d & _ & ->)|[(k & d & _ & _ & ->)|(_ & _ & ->)]];
    try discriminate.
  destruct (for_loop fuel _ print_to_stream _) as [[u|e|] st3];
    intros H; try discriminate.
  injection H as <- _. reflexivity.
Qed.

(** C8, amended: in a run of [wait_for_operation] on a stream that tests
    true, where no call raises and the iterated waiter answers not finished
    [N] times and then finished, the function returns, and what it logged
    after the two constructions is [N] turns, each made of the events of
    one poll (round trip and clock reading only), then the truth test of
    the stream, one marker, its flush right after it, and the sleep, and
    then the events of the last poll alone; so the stream received exactly
    [N] markers, each followed by a flush, none of them from a poll. *)
Theorem wait_for_operation_progress (sdk : SDK) (id : string)
    (timeout : option float) (s : Stream) (st st1 st2 : State)
    (waiter it : ref) (N fuel : nat) :
  no_raises ->
  (forall history, truthy history s = true) ->
  operation_waiter sdk id timeout st = (Ok waiter, st1) ->
  operation_waiter sdk id timeout st1 = (Ok it, st2) ->
  fst (poll_seq (S N) it st2) = repeat (Ok false) N ++ [Ok true] ->
  N < fuel ->
  exists (r : option Operation) (st' : State)
         (polls : list (list Event)) (last : list Event),
    wait_for_operation fuel sdk id timeout (Some s) st = (Ok r, st') /\
    length polls = N /\
    Forall (fun p => forallb waiter_event p = true) (last :: polls) /\
    log st' = log st2 ++ concat (map (iteration s) polls) ++ last /\
    sink_events s (log st') = sink_events s (log st) ++ markers s N /\
    calls st' = calls st + S N.
Proof.
  intros Hno Htrue H1 H2 Hseq Hfuel.
  destruct (wait_for_operation_unfold fuel sdk id timeout (Some s)
              st st1 st2 waiter it H1 H2) as (Hne & ->).
  destruct (for_loop_turns it (Some s) (fun b => b = true) N Hno Htrue
              st2 fuel (Ok true) Hseq ltac:(discriminate) Hfuel)
    as (st' & turns & last & Hrun & Hlen & Hall & Hlast & Hlog & Hweq).
  destruct (turns_iterations s turns Hall) as (Hturns & Hpolls).
  rewrite Hrun. cbn [loop_outcome].
  exists None, st', (map snd turns), last.
  split; [reflexivity|].
  split; [rewrite length_map; exact Hlen|].
  split; [constructor; assumption|].
  rewrite Hturns in Hlog.
  split; [exact Hlog|].
  destruct (operation_waiter_inv _ _ _ _ _ _ H1) as (_ & -> & Hst1).
  destruct (operation_waiter_inv _ _ _ _ _ _ H2) as (_ & -> & Hst2).
  split.
  - rewrite Hlog, Hst2. cbn [built log]. rewrite Hst1. cbn [built log].
    rewrite !sink_events_app.
    rewrite (sink_events_waiter s last Hlast).
    rewrite (sink_events_iterations s _ Hpolls).
    rewrite length_map, Hlen.
    destruct (timeout_truthy timeout); cbn; rewrite !app_nil_r; reflexivity.
  - destruct Hweq as (_ & Hc & _). rewrite Hc.
    assert (Hw2 : exists w, heap st2 !! length (heap st1) = Some w).
    { rewrite Hst2. eexists. apply built_lookup. }
    destruct Hw2 as (w & Hw2).
    destruct (poll_seq_state (S N) _ w st2 Hw2) as (Hcs & _).
    rewrite Hcs, Hst2. cbn [built calls]. rewrite Hst1. cbn [built calls]. lia.
Qed.

(** ** Transport errors *)


(** ** Further properties of the waiter and its driver *)

(** A step of the iteration keeps the object in place, with the same
    request and deadline. *)
Lemma next_valid (self : ref) (w : OperationWaiter) (st : State) :
  heap st !! self = Some w ->
  exists op,
    heap (snd (__next__ self st)) !! self = Some (with_operation w op).
Proof.
  intros Hw. destruct (Poll_state self w st Hw) as (_ & _ & op & Hop).
  destruct (Poll_next self st) as (_ & <-). exists op. exact Hop.
Qed.

(** A step of the iteration logs its own request, then at most a clock
    reading. *)
Lemma next_log_request (self : ref) (w : OperationWaiter) (st : State) :
  heap st !! self = Some w ->
  exists p,
    log (snd (__next__ self st)) = log st ++ p /\
    Forall (fun ev => ev = EvGet (request_of w) \/ ev = EvTime) p.
Proof.
  intros Hw. rewrite (next_unfold self w st Hw).
  assert (H1 : Forall (fun ev => ev = EvGet (request_of w) \/ ev = EvTime)
                 [EvGet (request_of w)]).
  { constructor; [left; reflexivity|constructor]. }
  assert (H2 : Forall (fun ev => ev = EvGet (request_of w) \/ ev = EvTime)
                 [EvGet (request_of w); EvTime]).
  { constructor; [left; reflexivity|].
    constructor; [right; reflexivity|constructor]. }
  destruct (remote (calls st) (request_of w)) as [op|c d].
  - destruct (snapshot_done op); [|destruct (__deadline w)]; cbn.
    + eexists. split; [reflexivity|exact H1].
    + exists [EvGet (request_of w); EvTime].
      rewrite <- app_assoc. split; [reflexivity|exact H2].
    + eexists. split; [reflexivity|exact H1].
  - eexists. split; [reflexivity|exact H1].
Qed.

Lemma loop_event_outside (sdk : SDK) (print_to_stream : option Stream)
    (req : GetOperationRequest) (q : list Event) :
  Forall (outside_event sdk print_to_stream) q ->
  Forall (loop_event sdk print_to_stream req) q.
Proof.
  intros H. eapply Forall_impl; [exact H|].
  intros ev H'. right. right. exact H'.
Qed.

(** Whatever the fuel and however it ends, the loop logs nothing but its
    own request, clock readings, one-second sleeps, and truth tests,
    markers and flushes on the stream it was given. *)
Lemma for_loop_events (sdk : SDK) (fuel : nat) (it : ref)
    (print_to_stream : option Stream) :
  forall (w : OperationWaiter) (st : State),
    heap st !! it = Some w ->
    exists delta,
      log (snd (for_loop fuel it print_to_stream st)) = log st ++ delta /\
      Forall (loop_event sdk print_to_stream (request_of w)) delta.
Proof.
  induction fuel as [|fuel IH]; intros w st Hw.
  - exists []. rewrite app_nil_r. split; [reflexivity|constructor].
  - cbn [for_loop].
    destruct (next_log_request it w st Hw) as (p & Hlog & Hp).
    destruct (next_valid it w st Hw) as (op & Hw1).
    assert (Hp' : Forall (loop_event sdk print_to_stream (request_of w)) p).
    { eapply Forall_impl; [exact Hp|]. intros ev [->| ->].
      - left. reflexivity.
      - right. left. reflexivity. }
    destruct (__next__ it st) as [[u|e|] st1]; cbn [snd] in *.
    + unfold bind at 1.
      destruct (loop_body_spec sdk print_to_stream st1)
        as (q & (Hh & _ & _) & Hlogb & Hq & _).
      apply (loop_event_outside sdk print_to_stream (request_of w)) in Hq.
      destruct (loop_body print_to_stream st1) as [[u'|e'|] st1b];
        cbn [snd] in *.
      * assert (Hw1b : heap st1b !! it = Some (with_operation w op))
          by (rewrite Hh; exact Hw1).
        destruct (IH _ st1b Hw1b) as (delta & Hlog' & Hdelta).
        exists (p ++ q ++ delta).
        split.
        -- rewrite Hlog', Hlogb, Hlog. rewrite <- !app_assoc. reflexivity.
        -- apply Forall_app. split; [exact Hp'|].
           apply Forall_app. split; [exact Hq|exact Hdelta].
      * exists (p ++ q). split.
        -- rewrite Hlogb, Hlog. rewrite <- !app_assoc. reflexivity.
        -- apply Forall_app. split; assumption.
      * exists (p ++ q). split.
        -- rewrite Hlogb, Hlog. rewrite <- !app_assoc. reflexivity.
        -- apply Forall_app. split; assumption.
    + exists p. split; [destruct e; exact Hlog|exact Hp'].
    + exists p. split; [exact Hlog|exact Hp'].
Qed.

Lemma built_log_events (sdk : SDK) (id : string) (timeout : option float)
    (print_to_stream : option Stream) (st : State) :
  exists p,
    log (built sdk id timeout st) = log st ++ p /\
    Forall (loop_event sdk print_to_stream {| operation_id := id |}) p.
Proof.
  eexists. split; [reflexivity|].
  apply Forall_cons_2; [right; right; left; reflexivity|].
  destruct (timeout_truthy timeout); [|apply Forall_nil_2].
  apply Forall_cons_2; [right; left; reflexivity|apply Forall_nil_2].
Qed.

(** X2: every call a run of [wait_for_operation] logs, whatever the fuel
    and however the run ends, is [sdk.client] on the SDK it was given, a
    [Get] for the operation identifier it was given, a clock reading, a
    sleep of one second, or the truth test, the marker ["."] or a flush on
    the stream it was given; with no stream nothing is written anywhere. *)
Theorem wait_for_operation_events (fuel : nat) (sdk : SDK) (id : string)
    (timeout : option float) (print_to_stream : option Stream) (st : State) :
  exists delta,
    log (snd (wait_for_operation fuel sdk id timeout print_to_stream st)) =
      log st ++ delta /\
    Forall (loop_event sdk print_to_stream {| operation_id := id |}) delta.
Proof.
  assert (Hc : loop_event sdk print_to_stream {| operation_id := id |}
                 (EvClient sdk)) by (right; right; left; reflexivity).
  destruct (built_log_events sdk id timeout print_to_stream st)
    as (p1 & L1 & Hp1).
  destruct (built_log_events sdk id timeout print_to_stream
              (built sdk id timeout st)) as (p2 & L2 & Hp2).
  destruct (wait_for_operation_cases fuel sdk id timeout print_to_stream st)
    as [(k & d & _ & ->)|[(k & d & _ & _ & ->)|(_ & _ & ->)]].
  - exists [EvClient sdk]. split; [reflexivity|].
    apply Forall_cons_2; [exact Hc|apply Forall_nil_2].
  - exists (p1 ++ [EvClient sdk]). split.
    + cbn [snd emit log]. rewrite L1, <- app_assoc. reflexivity.
    + apply Forall_app. split; [exact Hp1|].
      apply Forall_cons_2; [exact Hc|apply Forall_nil_2].
  - destruct (for_loop_events sdk fuel _ print_to_stream _ _
                (built_twice_lookup sdk id timeout st))
      as (delta & Hlog & Hdelta).
    exists (p1 ++ p2 ++ delta). split.
    + transitivity
        (log (snd (for_loop fuel (S (length (heap st))) print_to_stream
                     (built sdk id timeout (built sdk id timeout st))))).
      { destruct (for_loop fuel _ print_to_stream _) as [[u|e|] st3];
          reflexivity. }
      rewrite Hlog, L2, L1, <- !app_assoc. reflexivity.
    + apply Forall_app. split; [exact Hp1|].
      apply Forall_app. split; [exact Hp2|exact Hdelta].
Qed.

(** X3: polling one waiter changes no other object of the heap and creates
    none. *)
Theorem poll_seq_frame (n : nat) (self : ref) (st : State) :
  length (heap (snd (poll_seq n self st))) = length (heap st) /\
  forall j, j <> self ->
    heap (snd (poll_seq n self st)) !! j = heap st !! j.
Proof.
  revert st. induction n as [|n IH]; intros st.
  - split; [reflexivity|]. intros j _. reflexivity.
  - rewrite poll_seq_S. cbn [snd].
    destruct (Poll_next self st) as (_ & ->).
    destruct (IH (snd (__next__ self st))) as (Hlen & Hfr).
    split.
    + rewrite Hlen. destruct (heap st !! self) as [w|] eqn:Hw.
      * rewrite (next_unfold self w st Hw).
        destruct (remote (calls st) (request_of w)) as [op|c d];
          [|reflexivity].
        destruct (snapshot_done op); [|destruct (__deadline w)]; cbn;
          apply length_insert.
      * rewrite (next_dangling self st Hw). reflexivity.
    + intros j Hj. rewrite (Hfr j Hj). apply next_frame. exact Hj.
Qed.



(** Without a deadline and with every fetch answered not done, the loop
    never ends normally. *)
Lemma for_loop_never_ends (it : ref) (print_to_stream : option Stream)
    (fuel : nat) :
  forall (w : OperationWaiter) (st : State),
    heap st !! it = Some w ->
    __deadline w = None ->
    (forall n, exists op,
        remote n (request_of w) = Replies op /\ snapshot_done op = false) ->
    forall u st', for_loop fuel it print_to_stream st <> (Ok u, st').
Proof.
  induction fuel as [|fuel IH]; intros w st Hw Hd Hrem u st'.
  - discriminate.
  - cbn [for_loop]. rewrite (next_unfold it w st Hw).
    destruct (Hrem (calls st)) as (op & -> & ->). rewrite Hd.
    unfold bind at 1.
    destruct (loop_body_world_eq print_to_stream (fetched it w op st))
      as (Hh & _).
    destruct (loop_body print_to_stream (fetched it w op st))
      as [[u'|e'|] st1b]; cbn [snd] in *; try discriminate.
    apply (IH (with_operation w op) st1b); [|exact Hd|exact Hrem].
    rewrite Hh. cbn. apply list_lookup_insert_eq.
    eapply lookup_lt_Some; eauto.
Qed.

(** Without a deadline, with every fetch answered not done and no call
    raising, the loop uses up any fuel, one round trip per unit. *)
Lemma for_loop_forever (it : ref) (print_to_stream : option Stream)
    (fuel : nat) :
  no_raises ->
  forall (w : OperationWaiter) (st : State),
    heap st !! it = Some w ->
    __deadline w = None ->
    (forall n, exists op,
        remote n (request_of w) = Replies op /\ snapshot_done op = false) ->
    exists st',
      for_loop fuel it print_to_stream st = (OutOfFuel, st') /\
      calls st' = calls st + fuel.
Proof.
  intros Hno.
  induction fuel as [|fuel IH]; intros w st Hw Hd Hrem.
  - exists st. split; [reflexivity|]. lia.
  - cbn [for_loop]. rewrite (next_unfold it w st Hw).
    destruct (Hrem (calls st)) as (op & -> & ->). rewrite Hd.
    unfold bind at 1.
    destruct (loop_body_ok print_to_stream (fetched it w op st) Hno)
      as (st1b & -> & (Hh & Hc & _) & _).
    assert (Hw1 : heap st1b !! it = Some (with_operation w op)).
    { rewrite Hh. cbn. apply list_lookup_insert_eq.
      eapply lookup_lt_Some; eauto. }
    destruct (IH (with_operation w op) st1b Hw1 Hd Hrem) as (st' & Hrun & Hc').
    exists st'. split; [exact Hrun|]. rewrite Hc', Hc. cbn. lia.
Qed.

Lemma falsy_deadline (timeout : option float) (now : float) :
  timeout_truthy timeout = false -> deadline_at timeout now = None.
Proof.
  intros Ht. unfold deadline_at. destruct timeout; [rewrite Ht|]; reflexivity.
Qed.

(** X5: with a timeout that is absent or zero and a service that always
    answers not done, [wait_for_operation] never returns; and when no call
    raises, whatever the fuel, it runs out of it, having made one round
    trip per unit. *)
Theorem wait_for_operation_forever (fuel : nat) (sdk : SDK) (id : string)
    (timeout : option float) (print_to_stream : option Stream) (st : State) :
  timeout_truthy timeout = false ->
  (forall n, exists op,
      remote n {| operation_id := id |} = Replies op /\
      snapshot_done op = false) ->
  (forall r st',
     wait_for_operation fuel sdk id timeout print_to_stream st <>
       (Ok r, st')) /\
  (no_raises ->
   exists st',
     wait_for_operation fuel sdk id timeout print_to_stream st =
       (OutOfFuel, st') /\
     calls st' = calls st + fuel).
Proof.
  intros Ht Hrem.
  pose proof (built_twice_lookup sdk id timeout st) as Hw.
  rewrite (falsy_deadline timeout _ Ht) in Hw.
  split.
  - intros r st'.
    destruct (wait_for_operation_cases fuel sdk id timeout print_to_stream st)
      as [(k & d & _ & ->)|[(k & d & _ & _ & ->)|(_ & _ & ->)]];
      try discriminate.
    pose proof (for_loop_never_ends _ print_to_stream fuel _ _ Hw eq_refl
                  Hrem) as Hnever.
    destruct (for_loop fuel _ print_to_stream _) as [[u|e|] st3];
      try discriminate.
    exfalso. exact (Hnever u st3 eq_refl).
  - intros Hno.
    destruct (wait_for_operation_cases fuel sdk id timeout print_to_stream st)
      as [(k & d & R & _)|[(k & d & _ & R & _)|(_ & _ & ->)]];
      try (rewrite Hno in R; discriminate).
    destruct (for_loop_forever _ print_to_stream fuel Hno _ _ Hw eq_refl Hrem)
      as (st' & -> & Hc).
    exists st'. split; [reflexivity|].
    rewrite Hc. cbn. reflexivity.
Qed.

(** With a deadline that the clock reading number [K] from here reaches, a
    service whose fetches do not fail and no call raising, the loop ends
    within [K + 1] polls. *)
Lemma for_loop_deadline (it : ref) (print_to_stream : option Stream)
    (d : float) (K : nat) :
  no_raises ->
  forall (w : OperationWaiter) (st : State) (fuel : nat),
    heap st !! it = Some w ->
    __deadline w = Some d ->
    (forall n, exists op, remote n (request_of w) = Replies op) ->
    PrimFloat.leb d (clock (ticks st + K)) = true ->
    K < fuel ->
    exists st',
      for_loop fuel it print_to_stream st = (Ok tt, st') /\
      calls st' <= calls st + S K.
Proof.
  intros Hno.
  induction K as [|K IH]; intros w st fuel Hw Hd Hrem Hclock Hfuel;
    (destruct fuel as [|fuel]; [lia|]);
    cbn [for_loop]; rewrite (next_unfold it w st Hw);
    destruct (Hrem (calls st)) as (op & ->); rewrite Hd;
    (destruct (snapshot_done op);
     [eexists; split; [reflexivity|cbn; lia]|]).
  - rewrite Nat.add_0_r in Hclock. rewrite Hclock.
    eexists. split; [reflexivity|cbn; lia].
  - destruct (PrimFloat.leb d (clock (ticks st)));
      [eexists; split; [reflexivity|cbn; lia]|].
    unfold bind at 1.
    destruct (loop_body_ok print_to_stream (timed (fetched it w op st)) Hno)
      as (st1b & -> & (Hh & Hc & Ht) & _).
    assert (Hw1 : heap st1b !! it = Some (with_operation w op)).
    { rewrite Hh. cbn. apply list_lookup_insert_eq.
      eapply lookup_lt_Some; eauto. }
    destruct (IH (with_operation w op) st1b fuel Hw1 Hd Hrem) as (st' & Hrun & Hc').
    + rewrite Ht. cbn [timed fetched ticks].
      replace (S (ticks st) + K) with (ticks st + S K) by lia. exact Hclock.
    + lia.
    + exists st'. split; [exact Hrun|]. rewrite Hc in Hc'. cbn in Hc'. lia.
Qed.

(** X6: with a non-zero timeout [t], fetches that do not fail, no other
    call raising, and a clock whose reading number [K] after the two
    constructions is at or past the float sum of the second construction's
    reading and [t], [wait_for_operation] returns after at most [K + 1]
    round trips, given more than [K] units of fuel. *)
Theorem wait_for_operation_terminates (fuel K : nat) (sdk : SDK)
    (id : string) (t : float) (print_to_stream : option Stream) (st : State) :
  no_raises ->
  PrimFloat.eqb t 0 = false ->
  (forall n, exists op, remote n {| operation_id := id |} = Replies op) ->
  PrimFloat.leb (clock (S (ticks st)) + t) (clock (ticks st + 2 + K)) = true ->
  K < fuel ->
  exists st',
    wait_for_operation fuel sdk id (Some t) print_to_stream st =
      (Ok None, st') /\
    calls st' <= calls st + S K.
Proof.
  intros Hno Ht Hrem Hclock Hfuel.
  assert (Htr : timeout_truthy (Some t) = true) by (cbn; rewrite Ht; reflexivity).
  pose proof (built_twice_lookup sdk id (Some t) st) as Hw.
  assert (Hd : deadline_at (Some t)
                 (clock (ticks (built sdk id (Some t) st))) =
               Some (clock (S (ticks st)) + t)%float).
  { unfold deadline_at. rewrite Htr. cbn [built ticks]. rewrite Htr.
    reflexivity. }
  rewrite Hd in Hw.
  destruct (wait_for_operation_cases fuel sdk id (Some t) print_to_stream st)
    as [(k & d & R & _)|[(k & d & _ & R & _)|(_ & _ & ->)]];
    try (rewrite Hno in R; discriminate).
  destruct (for_loop_deadline _ print_to_stream _ K Hno _ _ fuel Hw eq_refl
              Hrem) as (st' & -> & Hc).
  - cbn [built ticks]. rewrite Htr.
    replace (S (S (ticks st)) + K) with (ticks st + 2 + K) by lia.
    exact Hclock.
  - exact Hfuel.
  - exists st'. split; [reflexivity|]. cbn in Hc. exact Hc.
Qed.

(** X7: a negative timeout is truthy, so it sets a deadline, the float sum
    of the construction time and the timeout; when that sum is not after
    the construction time and the clock does not go back before the first
    poll, the first poll whose fetch is answered says finished, whatever
    the answer. *)
Theorem negative_timeout_finishes (sdk : SDK) (id : string) (t : float)
    (st : State) (self : ref) (st1 : State) (op : option Operation) :
  PrimFloat.ltb t 0 = true ->
  operation_waiter sdk id (Some t) st = (Ok self, st1) ->
  remote (calls st1) {| operation_id := id |} = Replies op ->
  PrimFloat.leb (clock (ticks st) + t) (clock (ticks st)) = true ->
  PrimFloat.leb (clock (ticks st)) (clock (S (ticks st))) = true ->
  heap st1 !! self =
    Some (new_waiter sdk id (Some (clock (ticks st) + t)%float)) /\
  exists st', Poll self st1 = (Ok true, st').
Proof.
  intros Ht Hinit Hop Hsum Hclock.
  assert (Htr : timeout_truthy (Some t) = true).
  { destruct (float_ltb_neq t 0 Ht) as (Hne & _). cbn. rewrite Hne.
    reflexivity. }
  destruct (operation_waiter_inv _ _ _ _ _ _ Hinit) as (_ & -> & ->).
  set (w := new_waiter sdk id (Some (clock (ticks st) + t)%float)).
  assert (Hw : heap (built sdk id (Some t) st) !! length (heap st) = Some w).
  { rewrite built_lookup. unfold deadline_at. rewrite Htr. reflexivity. }
  split; [exact Hw|].
  eexists. rewrite (Poll_replies _ w _ op Hw Hop).
  f_equal. f_equal. apply orb_true_iff. right.
  unfold deadline_reached. cbn [w new_waiter __deadline built ticks].
  rewrite Htr.
  eapply float_leb_trans; [exact Hsum|exact Hclock].
Qed.

Lemma sleep_events_app (l1 l2 : list Event) :
  sleep_events (l1 ++ l2) = sleep_events l1 ++ sleep_events l2.
Proof. unfold sleep_events. apply List.filter_app. Qed.

Lemma sleep_events_waiter (p : list Event) :
  forallb waiter_event p = true -> sleep_events p = [].
Proof.
  induction p as [|ev p IH]; [reflexivity|].
  cbn [forallb]. intros H. apply andb_true_iff in H as (Hev & Hp).
  destruct ev; try discriminate; cbn; apply IH, Hp.
Qed.

Lemma sleep_events_turns (print_to_stream : option Stream)
    (B : bool -> Prop) (turns : list (bool * list Event)) :
  Forall (fun bp => B (fst bp) /\ forallb waiter_event (snd bp) = true)
    turns ->
  sleep_events (concat (map (turn_of print_to_stream) turns)) =
    repeat (EvSleep 1) (length turns).
Proof.
  induction 1 as [|[b p] turns (_ & Hp) _ IH]; [reflexivity|].
  cbn [map concat length]. unfold turn_of at 1, turn. cbn [fst snd] in *.
  rewrite !sleep_events_app, (sleep_events_waiter p Hp), IH.
  destruct print_to_stream, b; reflexivity.
Qed.

(** X8: with or without a stream, whatever its truth value, and whether the
    last poll finishes or its fetch raises, a run of [wait_for_operation]
    in which no other call raises and whose iterated waiter answers not
    finished [N] times before that last poll sleeps exactly [N] times, one
    second each. *)
Theorem wait_for_operation_sleeps (sdk : SDK) (id : string)
    (timeout : option float) (print_to_stream : option Stream)
    (st st1 st2 : State) (waiter it : ref) (N fuel : nat) (r : Result bool) :
  no_raises ->
  operation_waiter sdk id timeout st = (Ok waiter, st1) ->
  operation_waiter sdk id timeout st1 = (Ok it, st2) ->
  fst (poll_seq (S N) it st2) = repeat (Ok false) N ++ [r] ->
  r <> Ok false ->
  N < fuel ->
  sleep_events
    (log (snd (wait_for_operation fuel sdk id timeout print_to_stream st))) =
    sleep_events (log st) ++ repeat (EvSleep 1) N.
Proof.
  intros Hno H1 H2 Hseq Hr Hfuel.
  destruct (wait_for_operation_unfold fuel sdk id timeout print_to_stream
              st st1 st2 waiter it H1 H2) as (_ & ->).
  destruct (for_loop_turns it print_to_stream (fun _ => True) N Hno
              (fun _ => I) st2 fuel r Hseq Hr Hfuel)
    as (st' & turns & last & Hrun & Hlen & Hall & Hlast & Hlog & _).
  rewrite Hrun.
  assert (Hs : log (snd (match loop_outcome r with
                         | Ok _ => (Ok None, st')
                         | Raise e => (Raise e, st')
                         | OutOfFuel => (@OutOfFuel (option Operation), st')
                         end)) = log st')
    by (destruct (loop_outcome r); reflexivity).
  rewrite Hs, Hlog.
  destruct (operation_waiter_inv _ _ _ _ _ _ H1) as (_ & _ & Hst1).
  destruct (operation_waiter_inv _ _ _ _ _ _ H2) as (_ & _ & Hst2).
  rewrite Hst2. cbn [built log]. rewrite Hst1. cbn [built log].
  rewrite !sleep_events_app.
  rewrite (sleep_events_turns print_to_stream (fun _ => True) turns Hall), Hlen.
  rewrite (sleep_events_waiter last Hlast).
  destruct (timeout_truthy timeout); cbn; rewrite !app_nil_r; reflexivity.
Qed.

End Waiter.

(** ** The driver returns the wrong object's snapshot *)

(** C1 (the code departs from it): with a timeout of 30 seconds and a
    service reporting the operation done on the second fetch,
    [wait_for_operation] returns [None], although the last poll of the
    waiter it iterated (object 1) fetched and stored the done message; the
    object whose [operation] it returns (object 0) was never polled. *)
Theorem wait_for_operation_returns_unpolled_operation :
  exists st' : State,
    wait_for_operation (done_on_fetch 2) (steady_clock 0 1) no_raise
      always_true 3 the_sdk "op-1" (Some 30%float) None empty_state =
      (Ok None, st') /\
    LastSnapshot 1 st' = (Ok (Some (finished_op "op-1")), st') /\
    LastSnapshot 0 st' = (Ok None, st') /\
    calls st' = 2.
Proof.
  eexists. split; [vm_compute; reflexivity|].
  split; [|split]; reflexivity.
Qed.

(** ** The claims at concrete inputs *)

(** A poll whose fetch is answered done, on a waiter without deadline: it
    answers finished, reads no clock, and stores the done message. A poll
    whose fetch is answered not done, on a waiter whose deadline the clock
    has passed: the clock is read once, after the fetch, the poll answers
    finished, and the message of this very call is stored. *)
Lemma Poll_fetches_then_checks_deadline_witness :
  heap built_forever !! 0 = Some waiter_forever /\
  (exists (st' : State) (w' : OperationWaiter),
     Poll (done_on_fetch 1) (steady_clock 0 1) 0 built_forever =
       (Ok true, st') /\
     calls st' = 1 /\
     ticks st' = 0 /\
     log st' = [EvClient the_sdk; EvGet {| operation_id := "op-1" |}] /\
     heap st' !! 0 = Some w' /\
     __operation w' = Some (finished_op "op-1") /\
     __deadline w' = None) /\
  (exists (st' : State) (w' : OperationWaiter),
     Poll never_done late_clock 0 built_5s = (Ok true, st') /\
     log st' = [EvClient the_sdk; EvTime;
                EvGet {| operation_id := "op-1" |}; EvTime] /\
     heap st' !! 0 = Some w' /\
     __operation w' = Some (pending_op "op-1")).
Proof.
  split; [reflexivity|]. split.
  - pose proof (Poll_fetches_then_checks_deadline (done_on_fetch 1)
                  (steady_clock 0 1) 0 waiter_forever built_forever eq_refl)
      as H.
    cbn [calls built_forever waiter_forever __operation_id done_on_fetch
         Nat.leb operation_id] in H.
    destruct H as (finished & st' & w' & HP & Hfin & Hc & Hdone & _ & Hw' &
                   Hop & _ & _ & Hd).
    assert (Hex : exists o, Some (finished_op "op-1") = Some o /\
                            op_done o = true)
      by (eexists; split; reflexivity).
    destruct (Hdone Hex) as (Ht & Hl).
    assert (Hf : finished = true) by (apply Hfin; left; exact Hex).
    subst finished. exists st', w'.
    repeat split; assumption.
  - pose proof (Poll_fetches_then_checks_deadline never_done late_clock 0
                  waiter_5s built_5s eq_refl) as H.
    cbn [calls built_5s waiter_5s __operation_id never_done operation_id]
      in H.
    destruct H as (finished & st' & w' & HP & Hfin & _ & _ & Hnot & Hw' &
                   Hop & _).
    assert (Hnd : forall o, Some (pending_op "op-1") = Some o ->
                            op_done o = false)
      by (intros o Ho; injection Ho as <-; reflexivity).
    destruct (Hnot Hnd) as (_ & Hl).
    assert (Hf : finished = true).
    { apply Hfin. right. exists 5%float. split; reflexivity. }
    subst finished. exists st', w'.
    repeat split; assumption.
Defined.

Lemma LastSnapshot_after_Poll_witness :
  exists op : option Operation,
    never_done 0 (request_of waiter_5s) = Replies op /\
    LastSnapshot 0 (snd (Poll never_done (steady_clock 0 1) 0 built_5s)) =
      (Ok op, snd (Poll never_done (steady_clock 0 1) 0 built_5s)).
Proof.
  apply (LastSnapshot_after_Poll never_done (steady_clock 0 1) 0 waiter_5s
           built_5s _ false).
  - reflexivity.
  - vm_compute. reflexivity.
Defined.

Lemma Poll_absent_snapshot_witness :
  exists (finished : bool) (st' : State),
    Poll absent_reply (steady_clock 0 1) 0 built_5s = (Ok finished, st') /\
    done absent_reply 0 built_5s =
      (Ok false, fetched 0 waiter_5s None built_5s) /\
    LastSnapshot 0 st' = (Ok None, st') /\
    (finished = true <->
     exists deadline,
       __deadline waiter_5s = Some deadline /\
       PrimFloat.leb deadline (steady_clock 0 1 1) = true).
Proof.
  apply (Poll_absent_snapshot absent_reply (steady_clock 0 1) 0 waiter_5s
           built_5s); reflexivity.
Defined.


(** Construction at the second 1762300000 with a timeout of [2^-30]
    seconds: the deadline stored is the float sum, which is the
    construction time itself; with a timeout of zero none is stored. *)
Lemma construction_deadline_witness :
  (exists st1,
     operation_waiter frozen_clock no_raise the_sdk "op-1"
       (Some 0x1p-30%float) empty_state = (Ok 0, st1) /\
     heap st1 !! 0 =
       Some (new_waiter the_sdk "op-1"
               (Some (frozen_clock 0 + 0x1p-30)%float)) /\
     (frozen_clock 0 + 0x1p-30)%float = frozen_clock 0) /\
  (exists st1,
     operation_waiter (steady_clock 0 1) no_raise the_sdk "op-1"
       (Some 0%float) empty_state = (Ok 0, st1) /\
     heap st1 !! 0 = Some (new_waiter the_sdk "op-1" None) /\
     fst (poll_seq never_done (steady_clock 0 1) 4 0 st1) =
       repeat (Ok false) 4).
Proof.
  split.
  - destruct (construction_deadline never_done frozen_clock no_raise the_sdk
                "op-1" empty_state) as (Hpos & Hex & _).
    destruct (Hex 0x1p-30%float eq_refl eq_refl) as (st1 & Hinit).
    exists st1. split; [exact Hinit|].
    split; [exact (Hpos 0x1p-30%float _ _ eq_refl Hinit)|].
    vm_compute. reflexivity.
  - destruct (construction_deadline never_done (steady_clock 0 1) no_raise
                the_sdk "op-1" empty_state) as (_ & _ & Hzero & _).
    exists (snd (operation_waiter (steady_clock 0 1) no_raise the_sdk "op-1"
                   (Some 0%float) empty_state)).
    split; [reflexivity|].
    destruct (Hzero (Some 0%float) 0
                (snd (operation_waiter (steady_clock 0 1) no_raise the_sdk
                        "op-1" (Some 0%float) empty_state)))
      as (Hw & _ & Hpolls).
    { right. exists 0%float. split; reflexivity. }
    { reflexivity. }
    split; [exact Hw|].
    apply Hpolls. intros i _. eexists. split; reflexivity.
Defined.

(** With a timeout of 5 seconds and a clock advancing one second per
    reading, the fifth poll answers finished; with a timeout of [2^-30]
    seconds at the second 1762300000, where the float sum is the
    construction time itself, the first poll already does, on a clock that
    has not moved. *)
Lemma timeout_path_witness :
  (exists (finished : bool) (st' : State),
     Poll never_done (steady_clock 0 1) 0
       (snd (poll_seq never_done (steady_clock 0 1) 4 0 built_5s)) =
       (Ok finished, st') /\
     finished = true) /\
  (exists (finished : bool) (st' : State),
     Poll never_done frozen_clock 0
       (snd (operation_waiter frozen_clock no_raise the_sdk "op-1"
               (Some 0x1p-30%float) empty_state)) = (Ok finished, st') /\
     finished = true).
Proof.
  split.
  - destruct (timeout_path never_done (steady_clock 0 1) no_raise the_sdk
                "op-1" 5%float empty_state 0 built_5s 4)
      as (finished & st' & HP & _ & _ & _ & Hlate & _).
    + reflexivity.
    + vm_compute. reflexivity.
    + intros i req. eexists. split; reflexivity.
    + exists finished, st'. split; [exact HP|].
      apply Hlate. vm_compute. reflexivity.
  - destruct (timeout_path never_done frozen_clock no_raise the_sdk
                "op-1" 0x1p-30%float empty_state 0
                (snd (operation_waiter frozen_clock no_raise the_sdk "op-1"
                        (Some 0x1p-30%float) empty_state)) 0)
      as (finished & st' & HP & _ & _ & _ & Hlate & _).
    + reflexivity.
    + reflexivity.
    + intros i req. eexists. split; reflexivity.
    + exists finished, st'. split; [exact HP|].
      apply Hlate. vm_compute. reflexivity.
Defined.

Lemma done_on_kth_fetch_witness :
  fst (poll_seq (done_on_fetch 4) (steady_clock 0 1) 4 0 built_5s) =
    [Ok false; Ok false; Ok false; Ok true].
Proof.
  apply (done_on_kth_fetch (done_on_fetch 4) (steady_clock 0 1) no_raise
           the_sdk "op-1" (Some 5%float) empty_state 0 built_5s 4).
  - lia.
  - vm_compute. reflexivity.
  - intros i Hi. eexists. split; [reflexivity|].
    cbn. destruct i as [|[|[|i]]]; try reflexivity. lia.
  - eexists. split; reflexivity.
  - intros w d i Hw Hd Hi. cbn in Hw. injection Hw as <-.
    cbn in Hd. injection Hd as <-.
    destruct i as [|[|[|i]]]; try (vm_compute; reflexivity). lia.
Defined.

(** C2 as stated fails: with a timeout of one second, a clock that reads 10
    from its second reading on and a service reporting done on the second
    fetch, the first poll already answers finished. *)
Lemma done_on_kth_fetch_finished_early :
  ~ (forall (remote : nat -> GetOperationRequest -> Reply)
       (clock : nat -> float)
       (raises : list Event -> Event -> option (string * string))
       (sdk : SDK) (id : string) (timeout : option float) (st : State)
       (self : ref) (st1 : State) (k : nat),
       0 < k ->
       operation_waiter clock raises sdk id timeout st = (Ok self, st1) ->
       (forall i, i + 1 < k ->
          exists op,
            remote (calls st1 + i) {| operation_id := id |} = Replies op /\
            snapshot_done op = false) ->
       (exists op,
          remote (calls st1 + (k - 1)) {| operation_id := id |} = Replies op /\
          snapshot_done op = true) ->
       fst (poll_seq remote clock k self st1) =
         repeat (Ok false) (k - 1) ++ [Ok true]).
Proof.
  intros H.
  specialize (H (done_on_fetch 2) late_clock no_raise the_sdk "op-1"
                (Some 1%float) empty_state 0
                (snd (operation_waiter late_clock no_raise the_sdk "op-1"
                        (Some 1%float) empty_state)) 2).
  assert (Hbad : fst (poll_seq (done_on_fetch 2) late_clock 2 0
                        (snd (operation_waiter late_clock no_raise the_sdk
                                "op-1" (Some 1%float) empty_state))) =
                 [Ok true; Ok true]) by (vm_compute; reflexivity).
  rewrite Hbad in H.
  assert (Habs : [Ok true; Ok true] = repeat (Ok false) (2 - 1) ++ [Ok true]).
  { apply H.
    - lia.
    - vm_compute. reflexivity.
    - intros i Hi. assert (i = 0) as -> by lia.
      eexists. split; reflexivity.
    - eexists. split; reflexivity. }
  discriminate Habs.
Qed.

(** The first poll finishes on the deadline, the second and third on the
    done message. *)
Lemma finished_stays_finished_witness :
  fst (poll_seq (done_on_fetch 2) late_clock 3 0 built_5s) !! 0 =
    Some (Ok true) /\
  fst (poll_seq (done_on_fetch 2) late_clock 3 0 built_5s) !! 2 =
    Some (Ok true).
Proof.
  split; [vm_compute; reflexivity|].
  assert (H : exists finished,
            fst (poll_seq (done_on_fetch 2) late_clock 3 0 built_5s) !! 2 =
              Some (Ok finished))
    by (eexists; vm_compute; reflexivity).
  destruct H as (finished & H). rewrite H. do 2 f_equal.
  apply (finished_stays_finished (done_on_fetch 2) late_clock 0
           waiter_5s built_5s 3 0 2 finished).
  - reflexivity.
  - intros a b Hab. destruct a as [|a], b as [|b]; try reflexivity. lia.
  - intros a b req op op' Hab Ha Hd Hb.
    unfold done_on_fetch in *. injection Ha as <-. injection Hb as <-.
    unfold snapshot_done in *.
    destruct a as [|a]; [discriminate Hd|].
    destruct b as [|b]; [lia|reflexivity].
  - lia.
  - vm_compute. reflexivity.
  - exact H.
Defined.

(** C9 as stated fails: without a timeout, on a service reporting done on
    the first fetch and pending afterwards, the first poll answers finished
    and the second does not. *)
Lemma finished_then_not_finished :
  ~ (forall (remote : nat -> GetOperationRequest -> Reply)
       (clock : nat -> float)
       (self : ref) (w : OperationWaiter) (st : State) (n i j : nat)
       (finished : bool),
       heap st !! self = Some w ->
       i < j ->
       fst (poll_seq remote clock n self st) !! i = Some (Ok true) ->
       fst (poll_seq remote clock n self st) !! j = Some (Ok finished) ->
       finished = true).
Proof.
  intros H.
  specialize (H done_then_pending (steady_clock 0 1) 0 waiter_forever
                built_forever 2 0 1 false).
  assert (Habs : false = true).
  { apply H; [reflexivity | lia | vm_compute; reflexivity
              | vm_compute; reflexivity]. }
  discriminate Habs.
Qed.

Lemma wait_for_operation_progress_witness :
  exists (r : option Operation) (st' : State),
    wait_for_operation (done_on_fetch 3) (steady_clock 0 1) no_raise
      always_true 5 the_sdk "op-1" None (Some "stdout") empty_state =
      (Ok r, st') /\
    sink_events "stdout" (log st') =
      [EvWrite "stdout" "."; EvFlush "stdout";
       EvWrite "stdout" "."; EvFlush "stdout"] /\
    calls st' = 3.
Proof.
  destruct (wait_for_operation_progress (done_on_fetch 3) (steady_clock 0 1)
              no_raise always_true the_sdk "op-1" None "stdout" empty_state
              (snd (operation_waiter (steady_clock 0 1) no_raise the_sdk
                      "op-1" None empty_state))
              (snd (operation_waiter (steady_clock 0 1) no_raise the_sdk
                      "op-1" None
                      (snd (operation_waiter (steady_clock 0 1) no_raise
                              the_sdk "op-1" None empty_state))))
              0 1 2 5)
    as (r & st' & polls & last & Hrun & _ & _ & _ & Hsink & Hcalls).
  - intros history ev. reflexivity.
  - intros history. reflexivity.
  - reflexivity.
  - reflexivity.
  - vm_compute. reflexivity.
  - lia.
  - exists r, st'. split; [exact Hrun|]. split; [exact Hsink|exact Hcalls].
Defined.

(** C8 as stated fails: a sink that tests false, as an object with a
    [__len__] of zero does, receives no marker at all, however many polls
    are not terminal. *)
Lemma wait_for_operation_progress_falsy_sink :
  ~ (forall (remote : nat -> GetOperationRequest -> Reply)
       (clock : nat -> float)
       (raises : list Event -> Event -> option (string * string))
       (truthy : list Event -> Stream -> bool)
       (sdk : SDK) (id : string) (timeout : option float) (s : Stream)
       (st st1 st2 : State) (waiter it : ref) (N fuel : nat),
       operation_waiter clock raises sdk id timeout st = (Ok waiter, st1) ->
       operation_waiter clock raises sdk id timeout st1 = (Ok it, st2) ->
       fst (poll_seq remote clock (S N) it st2) =
         repeat (Ok false) N ++ [Ok true] ->
       N < fuel ->
       exists (r : option Operation) (st' : State),
         wait_for_operation remote clock raises truthy fuel sdk id timeout
           (Some s) st = (Ok r, st') /\
         sink_events s (log st') = sink_events s (log st) ++ markers s N).
Proof.
  intros H.
  destruct (H (done_on_fetch 3) (steady_clock 0 1) no_raise always_false
              the_sdk "op-1" None "stdout" empty_state
              (snd (operation_waiter (steady_clock 0 1) no_raise the_sdk
                      "op-1" None empty_state))
              (snd (operation_waiter (steady_clock 0 1) no_raise the_sdk
                      "op-1" None
                      (snd (operation_waiter (steady_clock 0 1) no_raise
                              the_sdk "op-1" None empty_state))))
              0 1 2 5)
    as (r & st' & Hrun & Hsink).
  - reflexivity.
  - reflexivity.
  - vm_compute. reflexivity.
  - lia.
  - vm_compute in Hrun. injection Hrun as <- <-.
    vm_compute in Hsink. discriminate Hsink.
Qed.

(** ** The example script *)

Section UsingWrapper.

Context {D : Type} (ext : Externals D).

Lemma str_truthy_iff (s : string) : str_truthy s = true <-> s <> "".
Proof.
  unfold str_truthy. rewrite negb_true_iff. apply String.eqb_neq.
Qed.

(** X9: when the key argument names no existing file and the network, the
    subnet and the service account are all given, [fill_missing_flags]
    returns without reading a file, calling a helper or changing
    anything. *)
Theorem fill_missing_flags_given (sdk : YandexSDK) (st : Script D) :
  path_exists ext (expanduser ext (ssh_public_key (arguments st))) = false ->
  network_id (arguments st) <> "" ->
  subnet_id (arguments st) <> "" ->
  service_account_id (arguments st) <> "" ->
  fill_missing_flags ext sdk st = (Returns tt, st).
Proof.
  intros Hkey Hn Hs Ha.
  apply str_truthy_iff in Hn, Hs, Ha.
  unfold fill_missing_flags, sbind, get_arguments, sret.
  rewrite Hkey, Hn. cbn -[str_truthy].
  rewrite Hs. cbn -[str_truthy]. rewrite Ha. reflexivity.
Qed.

(** X10: whether it returns or raises, [fill_missing_flags] never changes the
    credentials, the folder, the zone, the cluster name and description or
    the bucket, and never touches the [dataproc] object. *)
Theorem fill_missing_flags_untouched (sdk : YandexSDK) (st : Script D) :
  let st' := snd (fill_missing_flags ext sdk st) in
  sa_json_path (arguments st') = sa_json_path (arguments st) /\
  token (arguments st') = token (arguments st) /\
  folder_id (arguments st') = folder_id (arguments st) /\
  zone (arguments st') = zone (arguments st) /\
  cluster_name (arguments st') = cluster_name (arguments st) /\
  cluster_desc (arguments st') = cluster_desc (arguments st) /\
  s3_bucket (arguments st') = s3_bucket (arguments st) /\
  dataproc st' = dataproc st.
Proof.
  unfold fill_missing_flags, sbind, get_arguments, set_arguments, sret,
    external.
  cbn.
  destruct (path_exists ext _); [destruct (read_text ext _)|]; cbn;
    try (repeat split; reflexivity);
    (destruct (str_truthy (network_id _)); cbn;
     [|destruct (find_network_id ext _ _); cbn;
       try (repeat split; reflexivity)]);
    (destruct (str_truthy (subnet_id _)); cbn;
     [|destruct (find_subnet_id ext _ _ _ _); cbn;
       try (repeat split; reflexivity)]);
    (destruct (str_truthy (service_account_id _)); cbn;
     [|destruct (find_service_account_id ext _ _); cbn]);
    repeat split; reflexivity.
Qed.

(** X11: when both the network and the subnet are missing and the lookups
    succeed, the subnet is looked up in the network that was just found,
    and both are stored. *)
Theorem fill_missing_flags_subnet_of_found_network (sdk : YandexSDK)
    (st : Script D) (network subnet : string) :
  (path_exists ext (expanduser ext (ssh_public_key (arguments st))) = false \/
   exists content,
     read_text ext (ssh_public_key (arguments st)) = Returns content) ->
  network_id (arguments st) = "" ->
  subnet_id (arguments st) = "" ->
  find_network_id ext sdk (folder_id (arguments st)) = Returns network ->
  find_subnet_id ext sdk (folder_id (arguments st)) (zone (arguments st))
    network = Returns subnet ->
  let st' := snd (fill_missing_flags ext sdk st) in
  network_id (arguments st') = network /\
  subnet_id (arguments st') = subnet /\
  In (DidFindSubnet (folder_id (arguments st)) (zone (arguments st)) network)
    (journal st').
Proof.
  intros Hkey Hn' Hs' Hfn Hfs.
  assert (Hn : str_truthy (network_id (arguments st)) = false)
    by (rewrite Hn'; reflexivity).
  assert (Hs : str_truthy (subnet_id (arguments st)) = false)
    by (rewrite Hs'; reflexivity).
  unfold fill_missing_flags, sbind, get_arguments, set_arguments, sret,
    external.
  cbn -[str_truthy].
  assert (Hin : forall (l : list ScriptEvent) ev, In ev (l ++ [ev])).
  { intros l ev. apply in_or_app. right. left. reflexivity. }
  assert (Hin' : forall (l : list ScriptEvent) ev ev',
            In ev ((l ++ [ev]) ++ [ev'])).
  { intros l ev ev'. apply in_or_app. left. apply Hin. }
  destruct Hkey as [Hkey|(content & Hread)].
  - rewrite Hkey. cbn -[str_truthy]. rewrite Hn. cbn -[str_truthy].
    rewrite Hfn. cbn -[str_truthy]. rewrite Hs. cbn -[str_truthy].
    rewrite Hfs. cbn -[str_truthy].
    destruct (str_truthy (service_account_id _)); cbn;
      [|destruct (find_service_account_id ext _ _); cbn];
      repeat split; auto.
  - destruct (path_exists ext _); cbn -[str_truthy];
      rewrite ?Hread; cbn -[str_truthy];
      rewrite Hn; cbn -[str_truthy];
      rewrite Hfn; cbn -[str_truthy]; rewrite Hs; cbn -[str_truthy];
      rewrite Hfs; cbn -[str_truthy];
      (destruct (str_truthy (service_account_id _)); cbn;
       [|destruct (find_service_account_id ext _ _); cbn]);
      repeat split; auto.
Qed.

(** X12: the key file is looked for under its expanded name but opened under
    the name given: when that name cannot be read the exception leaves
    [fill_missing_flags] with the arguments unchanged and no helper called,
    and when it can, the key argument becomes the stripped content. *)
Theorem fill_missing_flags_key_file (sdk : YandexSDK) (st : Script D) :
  path_exists ext (expanduser ext (ssh_public_key (arguments st))) = true ->
  match read_text ext (ssh_public_key (arguments st)) with
  | Throws e =>
      fill_missing_flags ext sdk st =
        (Throws e,
         {| arguments := arguments st; dataproc := dataproc st;
            journal :=
              journal st ++ [DidReadFile (ssh_public_key (arguments st))] |})
  | Returns content =>
      ssh_public_key (arguments (snd (fill_missing_flags ext sdk st))) =
        strip ext content
  end.
Proof.
  intros Hkey.
  unfold fill_missing_flags, sbind, get_arguments, set_arguments, sret,
    external.
  cbn -[str_truthy]. rewrite Hkey.
  destruct (read_text ext _) as [content|e]; cbn -[str_truthy];
    [|reflexivity].
  (destruct (str_truthy (network_id _)); cbn -[str_truthy];
   [|destruct (find_network_id ext _ _); cbn -[str_truthy];
     try reflexivity]);
  (destruct (str_truthy (subnet_id _)); cbn -[str_truthy];
   [|destruct (find_subnet_id ext _ _ _ _); cbn -[str_truthy];
     try reflexivity]);
  (destruct (str_truthy (service_account_id _)); cbn;
   [|destruct (find_service_account_id ext _ _); cbn]);
  reflexivity.
Qed.

Lemma wrapper_calls_app (l1 l2 : list ScriptEvent) :
  wrapper_calls (l1 ++ l2) = wrapper_calls l1 ++ wrapper_calls l2.
Proof. apply omap_app. Qed.

Lemma wrapper_calls_map (cs : list DataprocCall) :
  wrapper_calls (map DidCall cs) = cs.
Proof.
  induction cs as [|c cs IH]; [reflexivity|]. cbn. f_equal. exact IH.
Qed.

Lemma fill_missing_flags_calls (sdk : YandexSDK) (st : Script D) :
  wrapper_calls (journal (snd (fill_missing_flags ext sdk st))) =
    wrapper_calls (journal st).
Proof.
  unfold fill_missing_flags, sbind, get_arguments, set_arguments, sret,
    external.
  cbn -[str_truthy].
  destruct (path_exists ext _); [destruct (read_text ext _)|];
    cbn -[str_truthy];
    try (rewrite !wrapper_calls_app; cbn; rewrite ?app_nil_r; reflexivity);
    (destruct (str_truthy (network_id _)); cbn -[str_truthy];
     [|destruct (find_network_id ext _ _); cbn -[str_truthy];
       try (rewrite !wrapper_calls_app; cbn; rewrite ?app_nil_r;
            reflexivity)]);
    (destruct (str_truthy (subnet_id _)); cbn -[str_truthy];
     [|destruct (find_subnet_id ext _ _ _ _); cbn -[str_truthy];
       try (rewrite !wrapper_calls_app; cbn; rewrite ?app_nil_r;
            reflexivity)]);
    (destruct (str_truthy (service_account_id _)); cbn;
     [|destruct (find_service_account_id ext _ _); cbn]);
    rewrite ?wrapper_calls_app; cbn; rewrite ?app_nil_r; reflexivity.
Qed.

(** [fill_missing_flags] never touches the [dataproc] object. *)
Lemma fill_missing_flags_dataproc (sdk : YandexSDK) (st : Script D) :
  dataproc (snd (fill_missing_flags ext sdk st)) = dataproc st.
Proof.
  unfold fill_missing_flags, sbind, get_arguments, set_arguments, sret,
    external.
  cbn.
  destruct (path_exists ext _); [destruct (read_text ext _)|]; cbn;
    try reflexivity;
    (destruct (str_truthy (network_id _)); cbn;
     [|destruct (find_network_id ext _ _); cbn; try reflexivity]);
    (destruct (str_truthy (subnet_id _)); cbn;
     [|destruct (find_subnet_id ext _ _ _ _); cbn; try reflexivity]);
    (destruct (str_truthy (service_account_id _)); cbn;
     [|destruct (find_service_account_id ext _ _); cbn]);
    reflexivity.
Qed.

Lemma sdk_from_key_file_state (path : option string) (st : Script D) :
  let st' := snd (sdk_from_key_file ext path st) in
  arguments st' = arguments st /\ dataproc st' = dataproc st /\
  wrapper_calls (journal st') = wrapper_calls (journal st).
Proof.
  unfold sdk_from_key_file, sbind, external, sret, throw.
  destruct path as [p|]; cbn; [|repeat split].
  destruct (read_text ext p); cbn; [destruct (json_load ext _); cbn|];
    repeat split; rewrite wrapper_calls_app; cbn; apply app_nil_r.
Qed.

(** The statements before the [try] block either raise, with no wrapper
    built, or build the wrapper and yield the bucket; they make no call on
    the wrapper. *)
Lemma main_setup_cases (st st' : Script D) (r : Outcome string) :
  dataproc st = None ->
  main_setup ext st = (r, st') ->
  wrapper_calls (journal st') = wrapper_calls (journal st) /\
  match r with
  | Throws _ => dataproc st' = None
  | Returns bucket =>
      bucket = s3_bucket (arguments st') /\
      exists sdk d,
        Dataproc ext sdk (folder_id (arguments st'))
          (ssh_public_key (arguments st')) = Returns d /\
        dataproc st' = Some d
  end.
Proof.
  intros Hd H. unfold main_setup in H.
  unfold sbind at 1 in H. unfold record at 1 in H.
  set (st0 := {| arguments := arguments st; dataproc := dataproc st;
                 journal := journal st ++ [DidBasicConfig] |}) in H.
  assert (H0 : dataproc st0 = None /\
               wrapper_calls (journal st0) = wrapper_calls (journal st)).
  { split; [exact Hd|]. subst st0. cbn.
    rewrite wrapper_calls_app. cbn. apply app_nil_r. }
  clearbody st0. destruct H0 as (Hd0 & Hj0).
  unfold sbind at 1 in H. unfold get_arguments at 1 in H.
  unfold sbind at 1 in H.
  set (mk := match token (arguments st0) with
             | Some t =>
                 if str_truthy t then sret (SDK_token t)
                 else sdk_from_key_file ext (sa_json_path (arguments st0))
             | None => sdk_from_key_file ext (sa_json_path (arguments st0))
             end) in H.
  assert (Hmk : dataproc (snd (mk st0)) = dataproc st0 /\
                wrapper_calls (journal (snd (mk st0))) =
                  wrapper_calls (journal st0)).
  { subst mk. destruct (token (arguments st0)) as [t|];
      [destruct (str_truthy t)|]; cbn;
      try (split; reflexivity);
      destruct (sdk_from_key_file_state (sa_json_path (arguments st0)) st0)
        as (_ & H1 & H2); split; assumption. }
  destruct (mk st0) as [[sdk|e] st1]; cbn [fst snd] in Hmk;
    destruct Hmk as (Hd1 & Hj1).
  2:{ injection H as <- <-. split; congruence. }
  unfold sbind at 1 in H.
  pose proof (fill_missing_flags_calls sdk st1) as Hj2.
  pose proof (fill_missing_flags_dataproc sdk st1) as Hd2.
  destruct (fill_missing_flags ext sdk st1) as [[u|e] st2];
    cbn [fst snd] in Hj2, Hd2.
  2:{ injection H as <- <-. split; congruence. }
  unfold sbind at 1 in H. unfold get_arguments at 1 in H.
  unfold sbind at 1 in H.
  destruct (Dataproc ext sdk (folder_id (arguments st2))
              (ssh_public_key (arguments st2))) as [d|e] eqn:HD; cbn in H;
    injection H as <- <-; cbn [journal arguments dataproc].
  - split; [congruence|]. split; [reflexivity|]. exists sdk, d.
    split; [exact HD|reflexivity].
  - split; congruence.
Qed.

(** A call on a built wrapper keeps it built and is recorded. *)
Lemma call_built (c : DataprocCall) (st : Script D) (d : D) :
  dataproc st = Some d ->
  call ext c st =
    (fst (dataproc_call ext c d),
     {| arguments := arguments st;
        dataproc := Some (snd (dataproc_call ext c d));
        journal := journal st ++ [DidCall c] |}).
Proof.
  intros Hd. unfold call. rewrite Hd.
  destruct (dataproc_call ext c d). reflexivity.
Qed.

(** The [try] block is its seven calls in a row. *)
Lemma main_try_call_all (bucket : string) (st : Script D) :
  main_try ext bucket st =
    call_all ext (jobs (subnet_id (arguments st)) bucket) st.
Proof.
  unfold main_try, jobs, call_all, sbind, get_arguments, sret.
  repeat match goal with
         | |- context [call ext ?c ?s] =>
             destruct (call ext c s) as [[[]|?] ?]
         end; reflexivity.
Qed.

(** Calls in a row on a built wrapper do what [run_calls] says. *)
Lemma call_all_run_calls (cs : list DataprocCall) :
  forall (st : Script D) (d : D) (pre : list DataprocCall)
         (r0 : Outcome unit) (d1 : D),
    dataproc st = Some d ->
    run_calls ext cs d = (pre, r0, d1) ->
    call_all ext cs st =
      (r0, {| arguments := arguments st; dataproc := Some d1;
              journal := journal st ++ map DidCall pre |}).
Proof.
  induction cs as [|c cs IH]; intros st d pre r0 d1 Hd Hrun.
  - cbn in Hrun. injection Hrun as <- <- <-.
    destruct st as [a dp j]. cbn in *. subst dp. rewrite app_nil_r.
    reflexivity.
  - cbn [run_calls] in Hrun. cbn [call_all]. unfold sbind.
    rewrite (call_built c st d Hd).
    destruct (dataproc_call ext c d) as [[u|e] d2]; cbn [fst snd].
    + destruct (run_calls ext cs d2) as [[made r] d3] eqn:Hrest.
      injection Hrun as <- <- <-.
      match goal with
      | |- call_all ext cs ?s = _ =>
          rewrite (IH s d2 made r d3 eq_refl Hrest)
      end.
      cbn [arguments journal map]. rewrite <- app_assoc. reflexivity.
    + injection Hrun as <- <- <-. reflexivity.
Qed.

(** The calls made in a row are the first so many of the calls asked,
    and all of them when the outcome is a return. *)
Lemma run_calls_prefix (cs : list DataprocCall) :
  forall (d : D) (pre : list DataprocCall) (r0 : Outcome unit) (d1 : D),
    run_calls ext cs d = (pre, r0, d1) ->
    pre `prefix_of` cs /\
    (forall u, r0 = Returns u -> pre = cs) /\
    (forall e, r0 = Throws e ->
       exists l c d2,
         pre = l ++ [c] /\
         run_calls ext l d = (l, Returns tt, d2) /\
         dataproc_call ext c d2 = (Throws e, d1)).
Proof.
  induction cs as [|c cs IH]; intros d pre r0 d1 Hrun.
  - cbn in Hrun. injection Hrun as <- <- <-.
    split; [reflexivity|]. split; [reflexivity|discriminate].
  - cbn [run_calls] in Hrun.
    destruct (dataproc_call ext c d) as [[u|e] d2] eqn:Hc.
    + destruct (run_calls ext cs d2) as [[made r] d3] eqn:Hrest.
      injection Hrun as <- <- <-.
      destruct (IH d2 made r d3 Hrest) as (Hp & Hall & Hthrow).
      split; [apply prefix_cons; exact Hp|].
      split; [intros u' Hr; rewrite (Hall u' Hr); reflexivity|].
      intros e He. destruct (Hthrow e He) as (l & c' & d4 & -> & Hl & Hc').
      exists (c :: l), c', d4. split; [reflexivity|].
      split; [|exact Hc'].
      cbn [run_calls]. rewrite Hc, Hl. reflexivity.
    + injection Hrun as <- <- <-.
      split; [exists cs; reflexivity|]. split; [discriminate|].
      intros e' He. injection He as <-.
      exists [], c, d. repeat split. exact Hc.
Qed.

(** The [try] statement of [main] on a built wrapper, exactly: the calls
    of the block up to the first that throws, what the [except] clause
    logs, and the [delete_cluster] of the [finally] block when the wrapper
    holds a cluster, whose exception replaces the outcome. *)
Lemma main_block_exact (bucket : string) (st : Script D) (d : D)
    (pre : list DataprocCall) (r0 : Outcome unit) (d1 : D) :
  dataproc st = Some d ->
  run_calls ext (jobs (subnet_id (arguments st)) bucket) d = (pre, r0, d1) ->
  try_except_finally (main_try ext bucket) is_OperationError
    (fun _ => record (DidLogException "Operation error"))
    (main_finally ext) st =
    match cluster_id ext d1 with
    | Some _ =>
        (match fst (dataproc_call ext delete_cluster d1) with
         | Returns _ => after_except r0
         | Throws e => Throws e
         end,
         {| arguments := arguments st;
            dataproc := Some (snd (dataproc_call ext delete_cluster d1));
            journal := journal st ++ map DidCall pre ++ except_log r0 ++
                       [DidCall delete_cluster] |})
    | None =>
        (after_except r0,
         {| arguments := arguments st; dataproc := Some d1;
            journal := journal st ++ map DidCall pre ++ except_log r0 |})
    end.
Proof.
  intros Hd Hrun. unfold try_except_finally.
  rewrite main_try_call_all.
  rewrite (call_all_run_calls _ st d pre r0 d1 Hd Hrun).
  destruct r0 as [[]|[m|k m]]; cbn [is_OperationError record after_except
                                    except_log arguments dataproc journal];
    unfold main_finally; cbn [dataproc];
    (destruct (cluster_id ext d1) as [cid|];
     [ unfold call; cbn [dataproc arguments journal];
       destruct (dataproc_call ext delete_cluster d1) as [[[]|e] d2];
       cbn [fst snd app]; rewrite <- ?app_assoc; reflexivity
     | cbn [app]; rewrite ?app_nil_r, <- ?app_assoc; reflexivity ]).
Qed.

(** A run of [main] from a state with no wrapper, exactly: either the
    statements before the [try] raised, no wrapper being built and no call
    made on one, or the wrapper was built and the [try] statement ran
    on it. *)
Lemma main_exact (st st' : Script D) (r : Outcome unit) :
  dataproc st = None ->
  main ext st = (r, st') ->
  (dataproc st' = None /\ (exists e, r = Throws e) /\
   wrapper_calls (journal st') = wrapper_calls (journal st)) \/
  exists (sdk : YandexSDK) (d0 : D) (pre : list DataprocCall)
         (r0 : Outcome unit) (d1 : D) (before : list ScriptEvent),
    Dataproc ext sdk (folder_id (arguments st'))
      (ssh_public_key (arguments st')) = Returns d0 /\
    run_calls ext
      (jobs (subnet_id (arguments st')) (s3_bucket (arguments st'))) d0 =
      (pre, r0, d1) /\
    wrapper_calls before = wrapper_calls (journal st) /\
    match cluster_id ext d1 with
    | Some _ =>
        r = match fst (dataproc_call ext delete_cluster d1) with
            | Returns _ => after_except r0
            | Throws e => Throws e
            end /\
        dataproc st' = Some (snd (dataproc_call ext delete_cluster d1)) /\
        journal st' = before ++ map DidCall pre ++ except_log r0 ++
                      [DidCall delete_cluster]
    | None =>
        r = after_except r0 /\
        dataproc st' = Some d1 /\
        journal st' = before ++ map DidCall pre ++ except_log r0
    end.
Proof.
  intros Hd H. unfold main in H. unfold sbind at 1 in H.
  destruct (main_setup ext st) as [r1 st1] eqn:Hsetup.
  destruct (main_setup_cases st st1 r1 Hd Hsetup) as (Hj & Hr1).
  destruct r1 as [bucket|e].
  - destruct Hr1 as (-> & sdk & d0 & HD & Hd1).
    destruct (run_calls ext
                (jobs (subnet_id (arguments st1)) (s3_bucket (arguments st1)))
                d0) as [[pre r0] d1] eqn:Hrun.
    rewrite (main_block_exact _ st1 d0 pre r0 d1 Hd1 Hrun) in H.
    right. exists sdk, d0, pre, r0, d1, (journal st1).
    destruct (cluster_id ext d1) as [cid|]; injection H as <- <-;
      cbn [arguments dataproc journal]; repeat split; assumption.
  - injection H as <- <-. left.
    split; [exact Hr1|]. split; [exists e; reflexivity|exact Hj].
Qed.

Lemma wrapper_calls_except_log (r0 : Outcome unit) :
  wrapper_calls (except_log r0) = [].
Proof. destruct r0 as [u|[m|k m]]; reflexivity. Qed.

(** X13: however [main] ends, by returning or by any exception, it does not
    leave a wrapper holding a cluster identifier without [delete_cluster]
    being the last thing it did. *)
Theorem main_leaves_no_cluster (st st' : Script D) (r : Outcome unit)
    (d : D) :
  dataproc st = None ->
  main ext st = (r, st') ->
  dataproc st' = Some d ->
  cluster_id ext d = None \/
  exists l, journal st' = l ++ [DidCall delete_cluster].
Proof.
  intros Hd H Hd'.
  destruct (main_exact st st' r Hd H)
    as [(Hnone & _)|(sdk & d0 & pre & r0 & d1 & before & _ & _ & _ & Hend)].
  - congruence.
  - destruct (cluster_id ext d1) as [cid|] eqn:Hcid.
    + right. destruct Hend as (_ & _ & ->).
      exists (before ++ map DidCall pre ++ except_log r0).
      rewrite <- !app_assoc. reflexivity.
    + left. destruct Hend as (_ & Hdp & _).
      assert (d1 = d) as <- by congruence. exact Hcid.
Qed.

(** X14: an [OperationError] raised by a call of the [try] block never leaves
    [main]: when [main] raises one, either no wrapper was built and no call
    was made on one, or it is the [delete_cluster] of the [finally] block,
    made last on the wrapper as the calls of the [try] block left it, that
    raised this very error. *)
Theorem main_OperationError (st st' : Script D) (message : string) :
  dataproc st = None ->
  main ext st = (Throws (OperationError message), st') ->
  (dataproc st' = None /\
   wrapper_calls (journal st') = wrapper_calls (journal st)) \/
  exists (sdk : YandexSDK) (d0 : D) (pre : list DataprocCall)
         (r0 : Outcome unit) (d1 d2 : D) (l : list ScriptEvent),
    Dataproc ext sdk (folder_id (arguments st'))
      (ssh_public_key (arguments st')) = Returns d0 /\
    run_calls ext
      (jobs (subnet_id (arguments st')) (s3_bucket (arguments st'))) d0 =
      (pre, r0, d1) /\
    dataproc_call ext delete_cluster d1 =
      (Throws (OperationError message), d2) /\
    dataproc st' = Some d2 /\
    journal st' = l ++ [DidCall delete_cluster].
Proof.
  intros Hd H.
  destruct (main_exact st st' _ Hd H)
    as [(Hnone & _ & Hj)|(sdk & d0 & pre & r0 & d1 & before & HD & Hrun & _ &
                          Hend)].
  - left. split; assumption.
  - right. destruct (cluster_id ext d1) as [cid|].
    + destruct Hend as (Hr & Hdp & Hjr).
      destruct (dataproc_call ext delete_cluster d1) as [[u|e] d2] eqn:Hdel;
        cbn [fst snd] in *.
      * destruct r0 as [u'|[m|k m]]; discriminate Hr.
      * injection Hr as <-.
        exists sdk, d0, pre, r0, d1, d2,
          (before ++ map DidCall pre ++ except_log r0).
        split; [exact HD|]. split; [exact Hrun|]. split; [exact Hdel|].
        split; [exact Hdp|]. rewrite Hjr, <- !app_assoc. reflexivity.
    + destruct Hend as (Hr & _). destruct r0 as [u'|[m|k m]]; discriminate Hr.
Qed.

(** X15: the calls [main] makes on the wrapper are none when no wrapper is
    built; otherwise they are [create_cluster],
    [update_cluster_description], [create_subcluster] and the four jobs, in
    this order and with the subnet and bucket of the arguments, each made
    on the wrapper as the one before left it and only when all the earlier
    ones returned, so that they stop with the first that throws, followed
    by one [delete_cluster] exactly when the wrapper then holds a cluster
    identifier. *)
Theorem main_calls_in_order (st st' : Script D) (r : Outcome unit) :
  dataproc st = None ->
  main ext st = (r, st') ->
  (dataproc st' = None /\
   wrapper_calls (journal st') = wrapper_calls (journal st)) \/
  exists (sdk : YandexSDK) (d0 : D) (pre : list DataprocCall)
         (r0 : Outcome unit) (d1 : D),
    Dataproc ext sdk (folder_id (arguments st'))
      (ssh_public_key (arguments st')) = Returns d0 /\
    run_calls ext
      (jobs (subnet_id (arguments st')) (s3_bucket (arguments st'))) d0 =
      (pre, r0, d1) /\
    pre `prefix_of`
      jobs (subnet_id (arguments st')) (s3_bucket (arguments st')) /\
    (forall u, r0 = Returns u ->
       pre = jobs (subnet_id (arguments st')) (s3_bucket (arguments st'))) /\
    (forall e, r0 = Throws e ->
       exists l c d2,
         pre = l ++ [c] /\
         run_calls ext l d0 = (l, Returns tt, d2) /\
         dataproc_call ext c d2 = (Throws e, d1)) /\
    wrapper_calls (journal st') =
      wrapper_calls (journal st) ++ pre ++
      match cluster_id ext d1 with
      | Some _ => [delete_cluster]
      | None => []
      end.
Proof.
  intros Hd H.
  destruct (main_exact st st' r Hd H)
    as [(Hnone & _ & Hj)|(sdk & d0 & pre & r0 & d1 & before & HD & Hrun & Hb &
                          Hend)].
  - left. split; assumption.
  - right. exists sdk, d0, pre, r0, d1.
    destruct (run_calls_prefix _ d0 pre r0 d1 Hrun) as (Hp & Hall & Hthrow).
    split; [exact HD|]. split; [exact Hrun|]. split; [exact Hp|].
    split; [exact Hall|]. split; [exact Hthrow|].
    destruct (cluster_id ext d1) as [cid|];
      destruct Hend as (_ & _ & ->);
      rewrite !wrapper_calls_app, wrapper_calls_map, wrapper_calls_except_log,
        Hb; cbn; rewrite ?app_nil_r; reflexivity.
Qed.

End UsingWrapper.

(** ** The further properties at concrete inputs *)

Lemma wait_for_operation_returns_None_witness :
  fst (wait_for_operation (done_on_fetch 2) (steady_clock 0 1) no_raise
         always_true 3 the_sdk "op-1" (Some 30%float) None empty_state) =
    Ok None.
Proof.
  assert (H : exists r st',
            wait_for_operation (done_on_fetch 2) (steady_clock 0 1) no_raise
              always_true 3 the_sdk "op-1" (Some 30%float) None empty_state =
              (Ok r, st'))
    by (eexists _, _; vm_compute; reflexivity).
  destruct H as (r & st' & H). rewrite H. cbn [fst]. f_equal.
  exact (wait_for_operation_returns_None _ _ _ _ _ _ _ _ _ _ _ _ H).
Defined.

Lemma poll_seq_frame_witness :
  heap (snd (poll_seq never_done (steady_clock 0 1) 3 1
               {| heap := [waiter_5s; waiter_forever]; calls := 0;
                  ticks := 1; log := [] |})) !! 0 = Some waiter_5s.
Proof.
  destruct (poll_seq_frame never_done (steady_clock 0 1) 3 1
              {| heap := [waiter_5s; waiter_forever]; calls := 0;
                 ticks := 1; log := [] |}) as (_ & Hframe).
  etransitivity; [apply (Hframe 0); lia|reflexivity].
Defined.


Lemma wait_for_operation_forever_witness :
  (forall r st',
     wait_for_operation never_done (steady_clock 0 1) closed_stream
       always_true 6 the_sdk "op-1" (Some 0%float) (Some "stdout")
       empty_state <> (Ok r, st')) /\
  exists st',
    wait_for_operation never_done (steady_clock 0 1) no_raise always_true 6
      the_sdk "op-1" (Some 0%float) None empty_state = (OutOfFuel, st') /\
    calls st' = 6.
Proof.
  split.
  - apply (wait_for_operation_forever never_done (steady_clock 0 1)
             closed_stream always_true 6 the_sdk "op-1" (Some 0%float)
             (Some "stdout") empty_state).
    + reflexivity.
    + intros n. eexists. split; reflexivity.
  - apply (wait_for_operation_forever never_done (steady_clock 0 1) no_raise
             always_true 6 the_sdk "op-1" (Some 0%float) None empty_state).
    + reflexivity.
    + intros n. eexists. split; reflexivity.
    + intros history ev. reflexivity.
Defined.

Lemma wait_for_operation_terminates_witness :
  exists st',
    wait_for_operation never_done (steady_clock 0 1) no_raise always_true 5
      the_sdk "op-1" (Some 3%float) None empty_state = (Ok None, st') /\
    calls st' <= 3.
Proof.
  apply (wait_for_operation_terminates never_done (steady_clock 0 1) no_raise
           always_true 5 2 the_sdk "op-1" 3%float None empty_state).
  - intros history ev. reflexivity.
  - reflexivity.
  - intros n. eexists. reflexivity.
  - vm_compute. reflexivity.
  - lia.
Defined.

Lemma negative_timeout_finishes_witness :
  exists st',
    Poll never_done (steady_clock 0 1) 0
      (snd (operation_waiter (steady_clock 0 1) no_raise the_sdk "op-1"
              (Some (-1)%float) empty_state)) = (Ok true, st').
Proof.
  apply (negative_timeout_finishes never_done (steady_clock 0 1) no_raise
           the_sdk "op-1" (-1)%float empty_state 0 _
           (Some (pending_op "op-1"))).
  - reflexivity.
  - vm_compute. reflexivity.
  - reflexivity.
  - vm_compute. reflexivity.
  - vm_compute. reflexivity.
Defined.

(** Two polls are not terminal: two sleeps, on a stream that tests
    false. *)
Lemma wait_for_operation_sleeps_witness :
  sleep_events
    (log (snd (wait_for_operation (done_on_fetch 3) (steady_clock 0 1)
                 no_raise always_false 5 the_sdk "op-1" None (Some "stdout")
                 empty_state))) =
    [EvSleep 1; EvSleep 1].
Proof.
  apply (wait_for_operation_sleeps (done_on_fetch 3) (steady_clock 0 1)
           no_raise always_false the_sdk "op-1" None (Some "stdout")
           empty_state
           (snd (operation_waiter (steady_clock 0 1) no_raise the_sdk "op-1"
                   None empty_state))
           (snd (operation_waiter (steady_clock 0 1) no_raise the_sdk "op-1"
                   None
                   (snd (operation_waiter (steady_clock 0 1) no_raise the_sdk
                           "op-1" None empty_state))))
           0 1 2 5 (Ok true)).
  - intros history ev. reflexivity.
  - reflexivity.
  - reflexivity.
  - vm_compute. reflexivity.
  - discriminate.
  - lia.
Defined.

Lemma fill_missing_flags_given_witness :
  fill_missing_flags demo_ext (SDK_token "t0ken") (start explicit_arguments) =
    (Returns tt, start explicit_arguments).
Proof.
  apply (fill_missing_flags_given demo_ext (SDK_token "t0ken")
           (start explicit_arguments)).
  - reflexivity.
  - discriminate.
  - discriminate.
  - discriminate.
Defined.

Lemma fill_missing_flags_subnet_of_found_network_witness :
  network_id
    (arguments (snd (fill_missing_flags demo_ext (SDK_token "t0ken")
                       (start demo_arguments)))) = "net-1" /\
  subnet_id
    (arguments (snd (fill_missing_flags demo_ext (SDK_token "t0ken")
                       (start demo_arguments)))) = "sub-of-net-1".
Proof.
  destruct (fill_missing_flags_subnet_of_found_network demo_ext
              (SDK_token "t0ken") (start demo_arguments) "net-1"
              "sub-of-net-1") as (Hn & Hs & _).
  - left. reflexivity.
  - reflexivity.
  - reflexivity.
  - reflexivity.
  - reflexivity.
  - split; [exact Hn|exact Hs].
Defined.

Lemma fill_missing_flags_key_file_witness :
  fill_missing_flags tilde_ext (SDK_token "t0ken")
    (start (with_ssh_public_key demo_arguments "~/key.pub")) =
    (Throws (OtherError "FileNotFoundError" "~/key.pub"),
     {| arguments := with_ssh_public_key demo_arguments "~/key.pub";
        dataproc := None;
        journal := [DidReadFile "~/key.pub"] |}).
Proof.
  exact (fill_missing_flags_key_file tilde_ext (SDK_token "t0ken")
           (start (with_ssh_public_key demo_arguments "~/key.pub"))
           eq_refl).
Defined.

Lemma main_leaves_no_cluster_witness :
  cluster_id demo_ext None = None \/
  exists l,
    journal (snd (main demo_ext (start demo_arguments))) =
      l ++ [DidCall delete_cluster].
Proof.
  apply (main_leaves_no_cluster demo_ext (start demo_arguments)
           (snd (main demo_ext (start demo_arguments)))
           (fst (main demo_ext (start demo_arguments))) None).
  - reflexivity.
  - vm_compute. reflexivity.
  - vm_compute. reflexivity.
Defined.

(** Where the cluster cannot be deleted, the error [main] raises is the one
    [delete_cluster] raised on the wrapper holding the cluster. *)
Lemma main_OperationError_witness :
  fst (main stuck_ext (start demo_arguments)) =
    Throws (OperationError "cannot delete") /\
  exists (l : list ScriptEvent) (d2 : option string),
    journal (snd (main stuck_ext (start demo_arguments))) =
      l ++ [DidCall delete_cluster] /\
    dataproc_call stuck_ext delete_cluster (Some "c9q") =
      (Throws (OperationError "cannot delete"), d2).
Proof.
  split; [vm_compute; reflexivity|].
  destruct (main_OperationError stuck_ext (start demo_arguments)
              (snd (main stuck_ext (start demo_arguments))) "cannot delete")
    as [(Hnone & _)|(sdk & d0 & pre & r0 & d1 & d2 & l & HD & Hrun & Hdel &
                     _ & Hj)].
  - reflexivity.
  - vm_compute. reflexivity.
  - vm_compute in Hnone. discriminate Hnone.
  - cbn in HD. injection HD as <-.
    vm_compute in Hrun. injection Hrun as _ _ <-.
    exists l, d2. split; [exact Hj|exact Hdel].
Defined.

(** In the demo world, where the Hive job fails: the calls stop with it,
    the two jobs after it are not made, and [delete_cluster] follows. *)
Lemma main_calls_in_order_witness :
  wrapper_calls (journal (snd (main demo_ext (start demo_arguments)))) =
    [the_create_cluster "sub-of-net-1" "logs";
     update_cluster_description "New cluster description";
     the_create_subcluster;
     the_mapreduce_job "logs";
     the_hive_job;
     delete_cluster].
Proof.
  destruct (main_calls_in_order demo_ext (start demo_arguments)
              (snd (main demo_ext (start demo_arguments)))
              (fst (main demo_ext (start demo_arguments)))
              eq_refl eq_refl)
    as [(Hnone & _)|(sdk & d0 & pre & r0 & d1 & HD & Hrun & _ & _ & _ &
                     Hcalls)].
  - vm_compute in Hnone. discriminate Hnone.
  - cbn in HD. injection HD as <-.
    vm_compute in Hrun. injection Hrun as <- _ <-.
    rewrite Hcalls. vm_compute. reflexivity.
Defined.
